(** * A shallow embedding of API_Toolkit.py (and the allele-frequency step of
    test_dashboard.py) of the Variant-Interpretation-Dashboard.

    Characters are modelled as ASCII ([ascii]); Python's [str.isdigit] and
    [str.strip] are therefore their ASCII restrictions.  Network access is an
    oracle [request -> transport B] passed to every adapter, and each run
    returns the log of requests it issued together with a Python outcome
    (a returned value or a raised exception). *)

From Stdlib Require Import String Ascii List ZArith QArith Qpower Qabs Bool Lia Lqa.
Import ListNotations.
Open Scope string_scope.
Set Warnings "-register-all".


(** ** Strings: the [str] methods the toolkit uses *)
Module PyStr.

(** [s.split(sep)] for a one-character separator. *)
Fixpoint split (sep : ascii) (s : string) : list string :=
  match s with
  | EmptyString => [""]
  | String c r =>
      let rest := split sep r in
      if Ascii.eqb c sep then "" :: rest
      else match rest with
           | h :: t => String c h :: t
           | [] => [String c ""]
           end
  end.

(** [l[-1]] on the (never empty) result of [split]. *)
Definition last_piece (l : list string) : string := last l "".

(** [c.isdigit()] on an ASCII character. *)
Definition isdigit (c : ascii) : bool :=
  (48 <=? nat_of_ascii c)%nat && (nat_of_ascii c <=? 57)%nat.

(** [c.isspace()] on an ASCII character: \t \n \v \f \r, \x1c-\x1f and space. *)
Definition isspace (c : ascii) : bool :=
  let n := nat_of_ascii c in
  ((9 <=? n)%nat && (n <=? 13)%nat) || ((28 <=? n)%nat && (n <=? 32)%nat).

(** [''.join(c for c in s if keep c)] *)
Fixpoint filter (keep : ascii -> bool) (s : string) : string :=
  match s with
  | EmptyString => EmptyString
  | String c r => if keep c then String c (filter keep r) else filter keep r
  end.

(** [s.replace(a, b)] for one-character [a] and [b]. *)
Fixpoint replace1 (a b : ascii) (s : string) : string :=
  match s with
  | EmptyString => EmptyString
  | String c r => String (if Ascii.eqb c a then b else c) (replace1 a b r)
  end.

Fixpoint lstrip (s : string) : string :=
  match s with
  | EmptyString => EmptyString
  | String c r => if isspace c then lstrip r else s
  end.

Fixpoint rev_str (s : string) (acc : string) : string :=
  match s with
  | EmptyString => acc
  | String c r => rev_str r (String c acc)
  end.

(** [s.strip()] *)
Definition strip (s : string) : string :=
  rev_str (lstrip (rev_str (lstrip s) "")) "".

(** [x in s] for strings: substring test. *)
Fixpoint is_prefix (p s : string) : bool :=
  match p, s with
  | EmptyString, _ => true
  | String a p', String b s' => Ascii.eqb a b && is_prefix p' s'
  | _, _ => false
  end.

Fixpoint contains (p s : string) : bool :=
  is_prefix p s || match s with
                   | EmptyString => false
                   | String _ s' => contains p s'
                   end.

(** The decimal digits of [n], most significant first, in front of [acc]. *)
Fixpoint digits (fuel : nat) (n : Z) (acc : string) : string :=
  match fuel with
  | O => acc
  | S f =>
      let acc' := String (ascii_of_nat (48 + Z.to_nat (n mod 10))) acc in
      if (n <? 10)%Z then acc' else digits f (n / 10) acc'
  end.

(** The decimal digits of [n >= 0]; a number has no more decimal digits
    than bits, so [1 + log2 n] steps suffice. *)
Definition of_nonneg (n : Z) : string := digits (S (Z.to_nat (Z.log2 n))) n "".

(** [str(z)] for an integer. *)
Definition of_Z (z : Z) : string :=
  if (z <? 0)%Z then "-" ++ of_nonneg (- z) else of_nonneg z.

Definition join (sep : string) (l : list string) : string :=
  match l with
  | [] => ""
  | h :: t => fold_left (fun acc x => acc ++ sep ++ x) t h
  end.

End PyStr.

(** ** Python exceptions and the request/response effect *)
Module Py.

(** The exceptions the toolkit can raise.  In requests, [HTTPError] and the
    JSON decoding error are subclasses of [RequestException]; [SystemExit]
    (raised by [sys.exit()]) is not a subclass of [Exception]. *)
Inductive exn :=
| RequestException          (* connection error, timeout, ... *)
| HTTPError (status : Z)    (* Response.raise_for_status() *)
| RJSONDecodeError          (* Response.json() on a non-JSON body *)
| ParseError                (* ElementTree.fromstring on malformed XML *)
| ValueError (msg : string)
| KeyError
| IndexError
| TypeError
| AttributeError
| ZeroDivisionError
| OverflowError             (* int / int too large for a float *)
| SystemExit.

(** [except requests.exceptions.RequestException] *)
Definition is_request_exception (e : exn) : bool :=
  match e with
  | RequestException | HTTPError _ | RJSONDecodeError => true
  | _ => false
  end.

(** [except Exception] *)
Definition is_exception (e : exn) : bool :=
  match e with SystemExit => false | _ => true end.

Inductive outcome (A : Type) :=
| Ret (a : A)
| Raise (e : exn).
Arguments Ret {A} a.
Arguments Raise {A} e.

End Py.

(** ** Decoded JSON values ([response.json()]) and the operations the
    toolkit applies to them.  Dictionaries decoded from JSON have distinct
    keys, so a dictionary is an association list looked up by first match. *)
Module Json.
Import Py.

Inductive json :=
| JNull
| JBool (b : bool)
| JInt (z : Z)
| JStr (s : string)
| JList (l : list json)
| JDict (kv : list (string * json)).

Fixpoint lookup (k : string) (kv : list (string * json)) : option json :=
  match kv with
  | [] => None
  | (k', v) :: r => if String.eqb k k' then Some v else lookup k r
  end.

(** [len(x)] *)
Definition py_len (j : json) : outcome Z :=
  match j with
  | JList l => Ret (Z.of_nat (length l))
  | JDict kv => Ret (Z.of_nat (length kv))
  | JStr s => Ret (Z.of_nat (String.length s))
  | _ => Raise TypeError
  end.

(** [x[0]] *)
Definition getitem0 (j : json) : outcome json :=
  match j with
  | JList (x :: _) => Ret x
  | JList [] => Raise IndexError
  | JDict _ => Raise KeyError
  | JStr (String c _) => Ret (JStr (String c ""))
  | JStr EmptyString => Raise IndexError
  | _ => Raise TypeError
  end.

(** [x[k]] for a string key [k] *)
Definition getitem (k : string) (j : json) : outcome json :=
  match j with
  | JDict kv => match lookup k kv with Some v => Ret v | None => Raise KeyError end
  | _ => Raise TypeError
  end.

(** [k in x] for a string [k] *)
Definition contains (k : string) (j : json) : outcome bool :=
  match j with
  | JDict kv => Ret (if lookup k kv then true else false)
  | JList l =>
      Ret (existsb (fun x => match x with JStr s => String.eqb s k | _ => false end) l)
  | JStr s => Ret (PyStr.contains k s)
  | _ => Raise TypeError
  end.

(** [x.get(k, d)] *)
Definition get (k : string) (d : json) (j : json) : outcome json :=
  match j with
  | JDict kv => Ret (match lookup k kv with Some v => v | None => d end)
  | _ => Raise AttributeError
  end.

(** [repr(x)] and [str(x)] (as used by f-strings). *)
Fixpoint repr (j : json) : string :=
  match j with
  | JNull => "None"
  | JBool true => "True"
  | JBool false => "False"
  | JInt z => PyStr.of_Z z
  | JStr s => "'" ++ s ++ "'"
  | JList l => "[" ++ PyStr.join ", " (map repr l) ++ "]"
  | JDict kv =>
      "{" ++ PyStr.join ", " (map (fun kv1 => "'" ++ fst kv1 ++ "': " ++ repr (snd kv1)) kv)
          ++ "}"
  end.

Definition py_str (j : json) : string :=
  match j with JStr s => s | _ => repr j end.

(** The integer value of a JSON number or boolean (Python's [bool] is an [int]). *)
Definition py_int (j : json) : option Z :=
  match j with
  | JInt z => Some z
  | JBool b => Some (if b then 1 else 0)%Z
  | _ => None
  end.

End Json.

(** ** XML trees ([xml.etree.ElementTree]) *)
Module Xml.
Import Py.

(** An element: tag, [.text] (None when the element has no leading text),
    children. *)
Inductive xml := XElem (tag : string) (text : option string) (children : list xml).

Definition text (x : xml) : option string := match x with XElem _ t _ => t end.

Fixpoint find_self_or_desc (t : string) (x : xml) : option xml :=
  match x with
  | XElem tg _ ch =>
      if String.eqb tg t then Some x
      else (fix go (l : list xml) : option xml :=
              match l with
              | [] => None
              | c :: r => match find_self_or_desc t c with
                          | Some e => Some e
                          | None => go r
                          end
              end) ch
  end.

(** [root.find('.//t')]: the first proper descendant of [root] with tag [t],
    in document order. *)
Definition find (t : string) (root : xml) : option xml :=
  match root with
  | XElem _ _ ch =>
      (fix go (l : list xml) : option xml :=
         match l with
         | [] => None
         | c :: r => match find_self_or_desc t c with
                     | Some e => Some e
                     | None => go r
                     end
         end) ch
  end.

(** [ElementTree.fromstring(content)]: a body is [Some] tree when it is
    well-formed XML, [None] otherwise. *)
Definition fromstring (b : option xml) : outcome xml :=
  match b with Some x => Ret x | None => Raise ParseError end.

End Xml.

(** ** HTML trees ([BeautifulSoup]); the parser is total, so a body is its
    document tree, whose root is the [BeautifulSoup] object itself. *)
Module Html.
Import Py.

Inductive html :=
| HElem (tag : string) (classes : list string) (attrs : list (string * string))
        (children : list html)
| HText (s : string).

Definition matches (names : list string) (cls : option string) (n : html) : bool :=
  match n with
  | HText _ => false
  | HElem tg cl _ _ =>
      existsb (String.eqb tg) names
      && match cls with None => true | Some c => existsb (String.eqb c) cl end
  end.

Fixpoint find_all_self (names : list string) (cls : option string) (n : html)
  : list html :=
  match n with
  | HText _ => []
  | HElem _ _ _ ch =>
      (if matches names cls n then [n] else [])
        ++ flat_map (find_all_self names cls) ch
  end.

(** [n.find_all(names, class_=cls)]: the matching proper descendants of
    [n], in document order. *)
Definition find_all (names : list string) (cls : option string) (n : html)
  : list html :=
  match n with
  | HText _ => []
  | HElem _ _ _ ch => flat_map (find_all_self names cls) ch
  end.

(** [n.find(name)] *)
Definition find (names : list string) (n : html) : option html :=
  hd_error (find_all names None n).

(** [n.text] *)
Fixpoint text (n : html) : string :=
  match n with
  | HText s => s
  | HElem _ _ _ ch => String.concat "" (map text ch)
  end.

Fixpoint attr_lookup (k : string) (l : list (string * string)) : option string :=
  match l with
  | [] => None
  | (k', v) :: r => if String.eqb k k' then Some v else attr_lookup k r
  end.

(** [n[k]] (attribute access) *)
Definition getattr_item (k : string) (n : html) : outcome string :=
  match n with
  | HElem _ _ attrs _ =>
      match attr_lookup k attrs with Some v => Ret v | None => Raise KeyError end
  | HText _ => Raise TypeError
  end.

End Html.

(** ** The [requests] library as an effect *)
Module Requests.
Import Py Json.

Inductive request :=
| Get (url : string)
| PostForm (url : string) (form : list (string * string))   (* data=... *)
| PostJson (url : string) (body : json).                   (* json=... *)

(** What the network gives back for one request: a transport failure
    (connection error, timeout, ...) or a response with a status code and a
    body of type [B]. *)
Inductive transport (B : Type) :=
| NetError
| Resp (status : Z) (body : B).
Arguments NetError {B}.
Arguments Resp {B} status body.

Record response (B : Type) := mkResponse { status_code : Z; content : B }.
Arguments mkResponse {B} status_code content.
Arguments status_code {B} r.
Arguments content {B} r.

(** A computation of an adapter: given the network, the requests it issued
    (in order) and its Python outcome. *)
Definition IO (B A : Type) : Type :=
  (request -> transport B) -> list request * outcome A.

Definition ret {B A} (a : A) : IO B A := fun _ => ([], Ret a).

Definition raise {B A} (e : exn) : IO B A := fun _ => ([], Raise e).

Definition lift {B A} (o : outcome A) : IO B A := fun _ => ([], o).

Definition bind {B A C} (m : IO B A) (k : A -> IO B C) : IO B C :=
  fun net =>
    let (l1, o) := m net in
    match o with
    | Ret a => let (l2, o2) := k a net in (app l1 l2, o2)
    | Raise e => (l1, Raise e)
    end.

Notation "x <- m ;; k" := (bind m (fun x => k))
  (at level 61, m at next level, right associativity).

(** [try: m  except <class> as e: h e] *)
Definition try_except {B A} (m : IO B A) (catches : exn -> bool)
  (h : exn -> IO B A) : IO B A :=
  fun net =>
    let (l1, o) := m net in
    match o with
    | Raise e =>
        if catches e then let (l2, o2) := h e net in (app l1 l2, o2)
        else (l1, Raise e)
    | Ret a => (l1, Ret a)
    end.

(** [requests.get(...)] / [requests.post(...)]: a transport failure raises
    [RequestException]. *)
Definition send {B} (r : request) : IO B (response B) :=
  fun net =>
    ([r], match net r with
          | NetError => Raise RequestException
          | Resp s b => Ret (mkResponse s b)
          end).

(** [Response.raise_for_status()] *)
Definition raise_for_status {B} (r : response B) : IO B unit :=
  let s := status_code r in
  if (400 <=? s)%Z && (s <? 600)%Z then raise (HTTPError s) else ret tt.

(** [Response.ok]: [False] exactly when [raise_for_status] raises. *)
Definition ok {B} (r : response B) : bool :=
  let s := status_code r in
  negb ((400 <=? s)%Z && (s <? 600)%Z).

(** [Response.json()] on a body that decodes ([Some]) or not ([None]). *)
Definition resp_json (r : response (option json)) : IO (option json) json :=
  match content r with
  | Some j => ret j
  | None => raise RJSONDecodeError
  end.

(** [sys.exit()] *)
Definition sys_exit {B A} : IO B A := raise SystemExit.

End Requests.

(** ** API_Toolkit.py *)
Module Toolkit.
Import Py Json Requests.

Definition na : json := JStr "N/A".

(** The double-quote character. *)
Definition dq : string := String (ascii_of_nat 34) "".

(** *** get_splice_ai_data (defaults: hg_version=38, distance=500, mask=1) *)
Definition splice_base_url : string :=
  "https://spliceailookup-api.broadinstitute.org/spliceai/".

Definition get_splice_ai_data (variant : string) (hg_version distance mask : Z)
  : IO (option json) (option json) :=
  let url := splice_base_url ++ "?hg=" ++ PyStr.of_Z hg_version ++ "&distance="
             ++ PyStr.of_Z distance ++ "&mask=" ++ PyStr.of_Z mask
             ++ "&variant=" ++ variant in
  try_except
    (response <- send (Get url) ;;
     if (status_code response =? 200)%Z then
       data <- resp_json response ;;
       ret (Some data)
     else ret None)
    is_request_exception
    (fun _ => ret None).

(** *** get_clinvar_classification *)
Definition clinvar_search_url (variant : string) : string :=
  "https://eutils.ncbi.nlm.nih.gov/entrez/eutils/esearch.fcgi?db=clinvar&term=" ++ variant.

Definition clinvar_summary_url (variant_id : string) : string :=
  "https://eutils.ncbi.nlm.nih.gov/entrez/eutils/esummary.fcgi?db=clinvar&id=" ++ variant_id.

(** [f"{t}"] for an element's [.text] (a [str] or [None]). *)
Definition fstr_text (t : option string) : string :=
  match t with Some s => s | None => "None" end.

Definition get_clinvar_classification (variant : string)
  : IO (option Xml.xml) (option (option string * option string * string)) :=
  search_response <- send (Get (clinvar_search_url variant)) ;;
  root <- lift (Xml.fromstring (content search_response)) ;;
  match Xml.find "Id" root with
  | None => ret None
  | Some id_element =>
      let variant_id := Xml.text id_element in
      summary_response <- send (Get (clinvar_summary_url (fstr_text variant_id))) ;;
      root <- lift (Xml.fromstring (content summary_response)) ;;
      let description_element := Xml.find "description" root in
      let review_status_element := Xml.find "review_status" root in
      match description_element with
      | None => ret None
      | Some description_element =>
          let clinical_significance := Xml.text description_element in
          match review_status_element with
          | None => raise AttributeError          (* None.text *)
          | Some review_status_element =>
              let review_status := Xml.text review_status_element in
              let link := "https://www.ncbi.nlm.nih.gov/clinvar/" ++ fstr_text variant_id in
              ret (Some (clinical_significance, review_status, link))
          end
      end
  end.

(** *** search_pubmed *)
Definition pubmed_base_url : string := "https://pubmed.ncbi.nlm.nih.gov".

Definition no_search_results : list string := ["No search results found."].

Definition link_html (paper_url paper_title : string) : string :=
  "<a href=" ++ dq ++ paper_url ++ dq ++ " target=" ++ dq ++ "_blank" ++ dq ++ ">"
  ++ paper_title ++ "</a>".

(** The loop over [search_results], appending to [result_links]. *)
Fixpoint build_links (search_results : list Html.html) (result_links : list string)
  : IO Html.html (list string) :=
  match search_results with
  | [] => ret result_links
  | result :: rest =>
      href <- lift (Html.getattr_item "href" result) ;;
      let paper_url := pubmed_base_url ++ href in
      let paper_title := Html.text result in
      build_links rest (app result_links [link_html paper_url paper_title])
  end.

Definition search_pubmed (query : string) : IO Html.html (option (list string)) :=
  let search_term := PyStr.replace1 " "%char "+"%char query in
  let url := pubmed_base_url ++ "/?term=" ++ search_term in
  try_except
    (response <- send (Get url) ;;
     if (status_code response =? 200)%Z then
       let soup := content response in
       let search_results := Html.find_all ["a"] (Some "docsum-title") soup in
       match search_results with
       | [] => ret (Some no_search_results)
       | _ :: _ =>
           result_links <- build_links search_results [] ;;
           ret (Some result_links)
       end
     else ret None)
    is_exception
    (fun _ => ret None).

(** *** get_varsome_data_url (defaults: assembly='hg38',
    annotation_mode='somatic'); the body of the response is not read. *)
Definition get_varsome_data_url (variant assembly annotation_mode : string)
  : IO string (option string) :=
  try_except
    (let variant_id := assembly ++ "/" ++ variant in
     let api_url := "https://varsome.com/variant/" ++ variant_id
                    ++ "?annotation-mode=" ++ annotation_mode in
     response <- send (Get api_url) ;;
     if (status_code response =? 200)%Z then ret (Some api_url) else ret None)
    is_request_exception
    (fun _ => ret None).

(** *** get_revel_score *)
Definition revel_format_error : string :=
  "Invalid input data format. It should be 'chr-pos-ref-alt'.".

Definition url_select : string := "http://database.liulab.science/aSelect".
Definition url_query : string := "http://database.liulab.science/SingleQuery".

Definition form_data_select : list (string * string) :=
  [("range", "hg38");
   ("selectBasicInfoA", "chr, pos, ref, alt, aaref, aaalt, rs_dbSNP, hg19_chr, hg19_pos, hg18_chr, hg18_pos, aapos, genename, Ensembl_geneid, Ensembl_transcriptid, Ensembl_proteinid, REVEL_score, REVEL_rankscore")].

(** [d[k]] on a dictionary of strings whose keys are all present. *)
Fixpoint sdict_get (k : string) (d : list (string * string)) : string :=
  match d with
  | [] => ""
  | (k', v) :: r => if String.eqb k k' then v else sdict_get k r
  end.

(** [d[k] = v] on a Python dict: an existing key keeps its position. *)
Fixpoint dict_set (k v : string) (d : list (string * string)) : list (string * string) :=
  match d with
  | [] => [(k, v)]
  | (k', v') :: r => if String.eqb k k' then (k', v) :: r else (k', v') :: dict_set k v r
  end.

(** [dict(pairs)] *)
Definition py_dict (pairs : list (string * string)) : list (string * string) :=
  fold_left (fun d kv => dict_set (fst kv) (snd kv) d) pairs [].

(** The parsing step of get_revel_score: split, length check, [input_data]. *)
Definition revel_input_data (input_data_string : string)
  : outcome (list (string * string)) :=
  let components := PyStr.split "-"%char input_data_string in
  if negb (length components =? 4)%nat then Raise (ValueError revel_format_error)
  else Ret [("chr", nth 0 components ""); ("pos", nth 1 components "");
            ("ref", nth 2 components ""); ("alt", nth 3 components "");
            ("aaref", ""); ("aaalt", ""); ("Ensembl_transcriptid", "")].

Definition form_data_query (input_data : list (string * string)) : list (string * string) :=
  map (fun k => (k, sdict_get k input_data))
      ["chr"; "pos"; "ref"; "alt"; "aaref"; "aaalt"; "Ensembl_transcriptid"].

(** [[cell.text.strip() for cell in row.find_all(['td', 'th'])]] *)
Definition row_cells (row : Html.html) : list string :=
  map (fun cell => PyStr.strip (Html.text cell)) (Html.find_all ["td"; "th"] None row).

(** [dict(zip(headers, data))] *)
Definition row_dict (headers : list string) (row : Html.html) : list (string * string) :=
  py_dict (combine headers (row_cells row)).

(** The table scraping of get_revel_score, on the parsed response. *)
Definition revel_table (soup : Html.html) : outcome (option (list (string * string))) :=
  match Html.find ["table"] soup with
  | None => Raise AttributeError                 (* None.find_all *)
  | Some table =>
      let headers := map (fun header => PyStr.strip (Html.text header))
                         (Html.find_all ["th"] (Some "w3-blue") table) in
      let rows := map (row_dict headers) (Html.find_all ["tr"] None table) in
      let rows := tl rows in                       (* rows[1:] *)
      Ret (hd_error rows)                          (* rows[0] if rows else None *)
  end.

Definition get_revel_score (input_data_string : string)
  : IO Html.html (option (list (string * string))) :=
  input_data <- lift (revel_input_data input_data_string) ;;
  _ <- send (PostForm url_select form_data_select) ;;
  response <- send (PostForm url_query (form_data_query input_data)) ;;
  if negb (status_code response =? 200)%Z then ret None
  else lift (revel_table (content response)).

(** *** The Ensembl VEP adapters.  The request header
    [Content-Type: application/json] is not modelled. *)
Definition vep_url (hgvs_variant : string) : string :=
  "https://rest.ensembl.org" ++ ("/vep/human/hgvs/" ++ hgvs_variant ++ "?").

Definition get_ensembl_functional_data (hgvs_variant : string)
  : IO (option json) (option (list (string * json))) :=
  r <- send (Get ("https://rest.ensembl.org" ++ ("/vep/human/hgvs/" ++ hgvs_variant ++ "?"))) ;;
  _ <- (if ok r then ret tt else _ <- raise_for_status r ;; sys_exit) ;;
  decoded <- resp_json r ;;
  n <- lift (py_len decoded) ;;
  guard <- (if (1 <=? n)%Z then
              d0 <- lift (getitem0 decoded) ;;
              lift (contains "transcript_consequences" d0)
            else ret false) ;;
  if guard then
    d0 <- lift (getitem0 decoded) ;;
    tcs <- lift (getitem "transcript_consequences" d0) ;;
    first_transcript_consequence <- lift (getitem0 tcs) ;;
    sift <- lift (get "sift_prediction" na first_transcript_consequence) ;;
    polyphen <- lift (get "polyphen_prediction" na first_transcript_consequence) ;;
    ret (Some [("SIFT Prediction", sift); ("PolyPhen Prediction", polyphen)])
  else ret None.

(** In the source [decoded[0]] is re-evaluated at each use; it is bound once
    here, the value being the same. *)
Definition get_ensembl_rest_data (hgvs_variant : string)
  : IO (option json) (option (list (string * json))) :=
  r <- send (Get ("https://rest.ensembl.org" ++ ("/vep/human/hgvs/" ++ hgvs_variant ++ "?"))) ;;
  _ <- (if ok r then ret tt else _ <- raise_for_status r ;; sys_exit) ;;
  decoded <- resp_json r ;;
  n <- lift (py_len decoded) ;;
  guard <- (if (1 <=? n)%Z then
              d0 <- lift (getitem0 decoded) ;;
              lift (contains "transcript_consequences" d0)
            else ret false) ;;
  if guard then
    d0 <- lift (getitem0 decoded) ;;
    tcs <- lift (getitem "transcript_consequences" d0) ;;
    first_transcript_consequence <- lift (getitem0 tcs) ;;
    gene_symbol <- lift (get "gene_symbol" na first_transcript_consequence) ;;
    assembly <- lift (get "assembly_name" na d0) ;;
    chrom <- lift (get "seq_region_name" na d0) ;;
    gstart <- lift (get "start" na d0) ;;
    gend <- lift (get "end" na d0) ;;
    severe <- lift (get "most_severe_consequence" na d0) ;;
    pstart <- lift (get "protein_start" na first_transcript_consequence) ;;
    pend <- lift (get "protein_end" na first_transcript_consequence) ;;
    aas <- lift (get "amino_acids" na first_transcript_consequence) ;;
    ret (Some [("Gene Symbol", gene_symbol); ("Assembly Name", assembly);
               ("Chromosome", chrom); ("Genomic Start", gstart); ("Genomic End", gend);
               ("Most Severe Consequence", severe); ("Protein Start", pstart);
               ("Protein End", pend); ("Amino Acids", aas)])
  else ret None.

Definition get_genomic_coordinates (hgvs_variant : string)
  : IO (option json) (option (list (string * json))) :=
  r <- send (Get ("https://rest.ensembl.org" ++ ("/vep/human/hgvs/" ++ hgvs_variant ++ "?"))) ;;
  _ <- (if ok r then ret tt else _ <- raise_for_status r ;; sys_exit) ;;
  decoded <- resp_json r ;;
  n <- lift (py_len decoded) ;;
  guard <- (if (1 <=? n)%Z then
              d0 <- lift (getitem0 decoded) ;;
              lift (contains "transcript_consequences" d0)
            else ret false) ;;
  if guard then
    d0 <- lift (getitem0 decoded) ;;
    tcs <- lift (getitem "transcript_consequences" d0) ;;
    first_transcript_consequence <- lift (getitem0 tcs) ;;
    let variant_change := PyStr.last_piece (PyStr.split ":"%char hgvs_variant) in
    let variant_change :=
      PyStr.filter (fun c => negb (PyStr.isdigit c)
                             && negb (Ascii.eqb c "."%char || Ascii.eqb c "c"%char))
                   variant_change in
    let variant_change := PyStr.replace1 ">"%char "-"%char variant_change in
    chrom <- lift (get "seq_region_name" na d0) ;;
    gstart <- lift (get "start" na d0) ;;
    ret (Some [("Chromosome", chrom); ("Start", gstart); ("VariantChange", JStr variant_change)])
  else ret None.

(** *** get_gnomad_data *)
Definition gnomad_api_url : string := "https://gnomad.broadinstitute.org/api/".

(** The GraphQL text of the source, with its layout whitespace collapsed. *)
Definition gnomad_query : string :=
  "query VariantDetails($datasetId: DatasetId!, $variantId: String!) { variant(dataset: $datasetId, variantId: $variantId) { pos ref alt rsid genome { ac an } exome { ac an } } }".

Definition gnomad_query_params (formatted_variant : string) : json :=
  JDict [("query", JStr gnomad_query);
         ("variables", JDict [("datasetId", JStr "gnomad_r4");
                              ("variantId", JStr formatted_variant)])].

(** When the guard fails the function falls off its end: it returns [None]. *)
Definition get_gnomad_data (hgvs_variant : string)
  : IO (option json) (option (string * json * json)) :=
  r <- send (Get ("https://rest.ensembl.org" ++ ("/vep/human/hgvs/" ++ hgvs_variant ++ "?"))) ;;
  _ <- (if ok r then ret tt else _ <- raise_for_status r ;; sys_exit) ;;
  decoded <- resp_json r ;;
  n <- lift (py_len decoded) ;;
  guard <- (if (1 <=? n)%Z then
              d0 <- lift (getitem0 decoded) ;;
              lift (contains "transcript_consequences" d0)
            else ret false) ;;
  if guard then
    d0 <- lift (getitem0 decoded) ;;
    tcs <- lift (getitem "transcript_consequences" d0) ;;
    first_transcript_consequence <- lift (getitem0 tcs) ;;
    let variant_change := PyStr.last_piece (PyStr.split ":"%char hgvs_variant) in
    let variant_change :=
      PyStr.filter (fun c => negb (PyStr.isdigit c)
                             && negb (Ascii.eqb c "."%char || Ascii.eqb c "c"%char))
                   variant_change in
    let variant_change := PyStr.replace1 ">"%char "-"%char variant_change in
    chrom <- lift (get "seq_region_name" na d0) ;;
    gstart <- lift (get "start" na d0) ;;
    let formatted_variant := py_str chrom ++ "-" ++ py_str gstart ++ "-" ++ variant_change in
    response <- send (PostJson gnomad_api_url (gnomad_query_params formatted_variant)) ;;
    if (status_code response =? 200)%Z then
      data <- resp_json response ;;
      dd <- lift (getitem "data" data) ;;
      dv <- lift (getitem "variant" dd) ;;
      genome_data <- lift (getitem "genome" dv) ;;
      exome_data <- lift (getitem "exome" dv) ;;
      ret (Some (formatted_variant, genome_data, exome_data))
    else ret None
  else ret None.

(** *** The three VEP adapters as one lookup with a field selection.
    [vep_lookup] is the request, status check, decoding, guard and
    [decoded[0]['transcript_consequences'][0]] step written once; a
    projection receives [decoded[0]] and the first transcript consequence. *)
Definition vep_lookup {A} (project : json -> json -> IO (option json) (option A))
  (hgvs_variant : string) : IO (option json) (option A) :=
  r <- send (Get (vep_url hgvs_variant)) ;;
  _ <- (if ok r then ret tt else _ <- raise_for_status r ;; sys_exit) ;;
  decoded <- resp_json r ;;
  n <- lift (py_len decoded) ;;
  guard <- (if (1 <=? n)%Z then
              d0 <- lift (getitem0 decoded) ;;
              lift (contains "transcript_consequences" d0)
            else ret false) ;;
  if guard then
    d0 <- lift (getitem0 decoded) ;;
    tcs <- lift (getitem "transcript_consequences" d0) ;;
    first_transcript_consequence <- lift (getitem0 tcs) ;;
    project d0 first_transcript_consequence
  else ret None.

Definition project_functional (d0 tc : json)
  : IO (option json) (option (list (string * json))) :=
  sift <- lift (get "sift_prediction" na tc) ;;
  polyphen <- lift (get "polyphen_prediction" na tc) ;;
  ret (Some [("SIFT Prediction", sift); ("PolyPhen Prediction", polyphen)]).

Definition project_rest (d0 tc : json)
  : IO (option json) (option (list (string * json))) :=
  gene_symbol <- lift (get "gene_symbol" na tc) ;;
  assembly <- lift (get "assembly_name" na d0) ;;
  chrom <- lift (get "seq_region_name" na d0) ;;
  gstart <- lift (get "start" na d0) ;;
  gend <- lift (get "end" na d0) ;;
  severe <- lift (get "most_severe_consequence" na d0) ;;
  pstart <- lift (get "protein_start" na tc) ;;
  pend <- lift (get "protein_end" na tc) ;;
  aas <- lift (get "amino_acids" na tc) ;;
  ret (Some [("Gene Symbol", gene_symbol); ("Assembly Name", assembly);
             ("Chromosome", chrom); ("Genomic Start", gstart); ("Genomic End", gend);
             ("Most Severe Consequence", severe); ("Protein Start", pstart);
             ("Protein End", pend); ("Amino Acids", aas)]).

(** The three [variant_change] lines of get_genomic_coordinates (and of
    get_gnomad_data). *)
Definition variant_change_of (hgvs_variant : string) : string :=
  let variant_change := PyStr.last_piece (PyStr.split ":"%char hgvs_variant) in
  let variant_change :=
    PyStr.filter (fun c => negb (PyStr.isdigit c)
                           && negb (Ascii.eqb c "."%char || Ascii.eqb c "c"%char))
                 variant_change in
  PyStr.replace1 ">"%char "-"%char variant_change.

Definition project_coordinates (hgvs_variant : string) (d0 tc : json)
  : IO (option json) (option (list (string * json))) :=
  chrom <- lift (get "seq_region_name" na d0) ;;
  gstart <- lift (get "start" na d0) ;;
  ret (Some [("Chromosome", chrom); ("Start", gstart);
             ("VariantChange", JStr (variant_change_of hgvs_variant))]).

(** get_gnomad_data after its VEP step, as a projection for [vep_lookup]. *)
Definition project_gnomad (hgvs_variant : string) (d0 tc : json)
  : IO (option json) (option (string * json * json)) :=
  chrom <- lift (get "seq_region_name" na d0) ;;
  gstart <- lift (get "start" na d0) ;;
  let formatted_variant :=
    py_str chrom ++ "-" ++ py_str gstart ++ "-" ++ variant_change_of hgvs_variant in
  response <- send (PostJson gnomad_api_url (gnomad_query_params formatted_variant)) ;;
  if (status_code response =? 200)%Z then
    data <- resp_json response ;;
    dd <- lift (getitem "data" data) ;;
    dv <- lift (getitem "variant" dd) ;;
    genome_data <- lift (getitem "genome" dv) ;;
    exome_data <- lift (getitem "exome" dv) ;;
    ret (Some (formatted_variant, genome_data, exome_data))
  else ret None.

End Toolkit.

(** ** test_dashboard.py, render_page4: the allele frequency of a cohort
    record, [d['ac'] / d['an'] if d['an'] != 0 else None].  Python's true
    division of two ints is modelled as the exact rational quotient. *)
Module Dashboard.
Import Py Json.

(** [x != 0] *)
Definition ne_zero (j : json) : bool :=
  match py_int j with Some z => negb (z =? 0)%Z | None => true end.

(** Python's true division of two [int]s (CPython's long_true_divide): the
    quotient correctly rounded to an IEEE 754 double, i.e. to a 53-bit
    significand [m * 2^q] with [q >= -1074] (subnormals included), ties to
    even; [OverflowError] when the rounded value reaches [2^1024].  The
    resulting double is kept as its exact rational value, in lowest terms. *)
Local Open Scope Z_scope.

(** [num / den] rounded to an integer, ties to even ([0 <= num], [0 < den]). *)
Definition round_half_even (num den : Z) : Z :=
  let m := num / den in
  match Z.compare (2 * (num mod den)) den with
  | Lt => m
  | Gt => m + 1
  | Eq => if Z.even m then m else m + 1
  end.

(** A numerator and a denominator for [(a / b) / 2^q]. *)
Definition scaled (a b q : Z) : Z * Z :=
  if 0 <=? q then (a, b * 2 ^ q) else (a * 2 ^ (- q), b).

(** [floor (log2 (a / b))] for [0 < a], [0 < b]. *)
Definition exponent (a b : Z) : Z :=
  let e := Z.log2 a - Z.log2 b in
  let (n, d) := scaled a b e in if d <=? n then e else e - 1.

(** The significand and exponent of the double nearest to [a / b]. *)
Definition round_pos (a b : Z) : Z * Z :=
  let q := Z.max (exponent a b) (-1022) - 52 in
  let (n, d) := scaled a b q in (round_half_even n d, q).

Definition pow2 (q : Z) : Q := Qpower (inject_Z 2) q.

(** [x / y] on two [int]s. *)
Definition int_truediv (x y : Z) : outcome Q :=
  if y =? 0 then Raise ZeroDivisionError
  else if x =? 0 then Ret 0%Q
  else let (m, q) := round_pos (Z.abs x) (Z.abs y) in
       if (0 <=? q) && (2 ^ 1024 <=? m * 2 ^ q) then Raise OverflowError
       else Ret (Qred ((if xorb (x <? 0) (y <? 0) then - inject_Z m else inject_Z m)
                       * pow2 q)%Q).

Local Close Scope Z_scope.

(** [a / b] *)
Definition truediv (a b : json) : outcome Q :=
  match py_int a, py_int b with
  | Some x, Some y => int_truediv x y
  | _, _ => Raise TypeError
  end.

Definition allele_frequency (d : json) : outcome (option Q) :=
  match getitem "an" d with
  | Raise e => Raise e
  | Ret an =>
      if ne_zero an then
        match getitem "ac" d with
        | Raise e => Raise e
        | Ret ac =>
            match truediv ac an with
            | Ret q => Ret (Some q)
            | Raise e => Raise e
            end
        end
      else Ret None
  end.


End Dashboard.

(** ** Vocabulary for stating properties of the toolkit *)
Module Spec.
Import Html Requests.

Fixpoint has_char (c : ascii) (s : string) : bool :=
  match s with
  | EmptyString => false
  | String c' r => Ascii.eqb c' c || has_char c r
  end.

Definition th_blue (t : string) : html := HElem "th" ["w3-blue"] [] [HText t].
Definition td (t : string) : html := HElem "td" [] [] [HText t].
Definition tr (cells : list html) : html := HElem "tr" [] [] cells.

(** A page whose single table has a header row of [w3-blue] header cells
    with texts [hs], followed by one row of data cells per element of
    [rows]. *)
Definition revel_page (hs : list string) (rows : list (list string)) : html :=
  HElem "[document]" [] []
    [HElem "table" [] [] (tr (map th_blue hs) :: map (fun ds => tr (map td ds)) rows)].

(** A REVEL result document as the lxml parser gives it to BeautifulSoup
    (wrapped in [html] and [body]), whose table has the header row [header]
    followed by [rows]. *)
Definition blue_th (t : string) : html := HElem "th" ["w3-blue"; "w3-center"] [] [HText t].

Definition revel_header_row : html :=
  HElem "tr" [] [] [HText " "; blue_th "chr"; HText " "; blue_th "pos"; HText " ";
                    blue_th "REVEL_score"; HText " "].

Definition plain_header_row : html :=
  HElem "tr" [] [] [HElem "th" [] [] [HText "chr"]; HElem "th" [] [] [HText "pos"]].

Definition revel_data_row : html :=
  HElem "tr" [] [] [HText " "; td "7"; HText " "; td " 117559590";
                    HElem "td" [] [] [HElem "b" [] [] [HText " 0.312 "]]; HText " "].

Definition revel_result_table (header : html) (rows : list html) : html :=
  HElem "table" ["w3-table"; "w3-bordered"] [] (header :: rows).

Definition revel_document (header : html) (rows : list html) : html :=
  HElem "[document]" [] []
    [HElem "html" [] []
       [HElem "head" [] [] [HElem "title" [] [] [HText "REVEL"]];
        HElem "body" [] []
          [HElem "h3" [] [] [HText "Query result"]; revel_result_table header rows]]].

(** The REVEL service answering the first post with an empty page and the
    query with [page]. *)
Definition revel_net (page : html) (r : request) : transport html :=
  match r with
  | PostForm u _ => if String.eqb u Toolkit.url_select then Resp 200%Z (HText "")
                    else Resp 200%Z page
  | _ => NetError
  end.



(** A reply that is a transport failure or a status other than 200. *)
Definition failing {B} (t : transport B) : Prop :=
  match t with NetError => True | Resp s _ => s <> 200%Z end.

(** A sample network: the VEP service answers every GET with one variant
    record carrying a transcript consequence, gnomAD answers every POST with
    genome and exome counts. *)
Definition sample_vep_record : Json.json :=
  Json.JList [Json.JDict [("seq_region_name", Json.JStr "20");
                          ("start", Json.JInt 58909365);
                          ("transcript_consequences",
                           Json.JList [Json.JDict [("gene_symbol", Json.JStr "GNAS")]])]].

Definition sample_gnomad_reply : Json.json :=
  Json.JDict [("data", Json.JDict [("variant", Json.JDict
    [("genome", Json.JDict [("ac", Json.JInt 3); ("an", Json.JInt 152000)]);
     ("exome", Json.JDict [("ac", Json.JInt 0); ("an", Json.JInt 0)])])])].

Definition sample_net (r : request) : transport (option Json.json) :=
  match r with
  | Get _ => Resp 200%Z (Some sample_vep_record)
  | _ => Resp 200%Z (Some sample_gnomad_reply)
  end.

(** The same VEP service, with gnomAD answering 502. *)
Definition gnomad_down_net (r : request) : transport (option Json.json) :=
  match r with
  | Get _ => Resp 200%Z (Some sample_vep_record)
  | _ => Resp 502%Z None
  end.

(** The guard [len(decoded) >= 1 and 'transcript_consequences' in decoded[0]]
    fails on an empty list and on a list whose first element does not
    contain the key. *)
Definition guard_fails (decoded : Json.json) : Prop :=
  decoded = Json.JList [] \/
  exists d0 rest, decoded = Json.JList (d0 :: rest) /\
    Json.contains "transcript_consequences" d0 = Py.Ret false.

End Spec.

(** ** test_dashboard.py: the pages that call the toolkit.  A page is run
    with the values its widgets return (the text typed, whether the button
    was pressed); what it shows is the list of Streamlit calls it makes, in
    order.  Image and file-reading pages (1 and 6) are static and left out. *)
Module Pages.
Import Py Json Requests Toolkit.

(** The body of one HTTP response under each reader the toolkit applies to
    it: [.json()] (None when it is not JSON), [ElementTree.fromstring]
    (None when it is not well-formed XML), [BeautifulSoup] and [.text]. *)
Record body := mkBody {
  as_json : option json;
  as_xml : option Xml.xml;
  as_html : Html.html;
  as_text : string }.

(** One cell of a [pandas] row: a value of the decoded record, or the
    [allele_frequency] the page stores into it (a [float] or [None]). *)
Inductive cell :=
| CJson (j : json)
| CFreq (q : option Q).

(** The Streamlit calls the pages make. *)
Inductive ui :=
| Title (s : string)
| Header (s : string)
| Subheader (s : string)
| Write (s : string)                          (* st.write(s) *)
| WriteMany (l : list string)                 (* st.write(a, b, ...) *)
| Markdown (s : string) (unsafe_allow_html : bool)
| Warning (s : string)
| TextInput (label default : string)
| Button (label : string)
| TableJ (t : list (string * json))           (* st.table(dict) *)
| TableS (t : list (string * string))         (* st.table of one-element columns *)
| TextTable (row : list (string * cell)).     (* st.text(tabulate(DataFrame([row]), ...)) *)

(** A page run: given the network, the requests issued, the Streamlit calls
    made and the Python outcome (an uncaught exception stops the script). *)
Definition Page (A : Type) : Type :=
  (request -> transport body) -> list request * list ui * outcome A.

Definition pret {A} (a : A) : Page A := fun _ => ([], [], Ret a).

Definition plift {A} (o : outcome A) : Page A := fun _ => ([], [], o).

Definition pbind {A C} (m : Page A) (k : A -> Page C) : Page C :=
  fun net =>
    let '(l1, u1, o) := m net in
    match o with
    | Ret a => let '(l2, u2, o2) := k a net in (app l1 l2, app u1 u2, o2)
    | Raise e => (l1, u1, Raise e)
    end.

Notation "x <~ m ;; k" := (pbind m (fun x => k))
  (at level 61, m at next level, right associativity).

Definition emit_all (l : list ui) : Page unit := fun _ => ([], l, Ret tt).

Definition emit (e : ui) : Page unit := emit_all [e].

(** An adapter's network, seen through the reader it applies to bodies. *)
Definition view {B} (v : body -> B) (net : request -> transport body)
  : request -> transport B :=
  fun r => match net r with NetError => NetError | Resp s b => Resp s (v b) end.

(** Calling an adapter from a page. *)
Definition call {B A} (v : body -> B) (m : IO B A) : Page A :=
  fun net => let (l, o) := m (view v net) in (l, [], o).

Definition obind {A C} (o : outcome A) (k : A -> outcome C) : outcome C :=
  match o with Ret a => k a | Raise e => Raise e end.

(** [x is None] for a decoded JSON value ([null] decodes to [None]). *)
Definition is_none (j : json) : bool := match j with JNull => true | _ => false end.

(** [for key, value in d.items(): st.write(f"{key}: {value}")] *)
Definition write_items (d : list (string * json)) : Page unit :=
  emit_all (map (fun kv => Write (fst kv ++ ": " ++ py_str (snd kv))) d).

(** [d.get(k, 'N/A')] on a result dictionary. *)
Definition get_na (k : string) (d : list (string * json)) : json :=
  match lookup k d with Some v => v | None => na end.

Definition hgvs_label : string :=
  "Enter variant in HGVS nomenclature e.g. NM_000516.7&#58;c.601C>T:".

(** *** render_page2 *)
Definition render_page2 (search_term : string) (clicked : bool) : Page unit :=
  _ <~ emit (Title "Summary Data") ;;
  _ <~ emit (Write "") ;;
  _ <~ emit (TextInput hgvs_label "") ;;
  _ <~ emit (Button "Get summary data") ;;
  if clicked then
    if negb (String.eqb search_term "") then
      ensembl_data <~ call as_json (get_ensembl_rest_data search_term) ;;
      genomic_coordinates <~ call as_json (get_genomic_coordinates search_term) ;;
      clinvar_data <~ call as_xml (get_clinvar_classification search_term) ;;
      varsome_url <~ call as_text (get_varsome_data_url search_term "hg38" "somatic") ;;
      _ <~ emit (Subheader "Ensembl") ;;
      _ <~ match ensembl_data with
           | Some ((_ :: _) as d) => write_items d
           | _ => emit (Warning "Not enough information in the Ensembl response or structure is not as expected.")
           end ;;
      _ <~ match genomic_coordinates with
           | Some ((_ :: _) as g) =>
               emit (Write ("GRCh38 Genomic Coordinates: " ++ py_str (get_na "Chromosome" g)
                            ++ "-" ++ py_str (get_na "Start" g)
                            ++ "-" ++ py_str (get_na "VariantChange" g)))
           | _ => emit (Warning "Not enough information in the genomic coordinates response or structure is not as expected.")
           end ;;
      _ <~ emit (Subheader "ClinVar Classification") ;;
      _ <~ match clinvar_data with
           | Some (clinical_significance, review_status, link) =>
               emit_all [Write ("Clinical Significance: " ++ fstr_text clinical_significance);
                         Write ("Review Status: " ++ fstr_text review_status);
                         Write ("ClinVar Search: " ++ link)]
           | None => emit (Warning "Clinical significance not found or variant not found in ClinVar.")
           end ;;
      _ <~ emit (Subheader "Varsome") ;;
      match varsome_url with
      | Some u =>
          if negb (String.eqb u "")
          then emit (Markdown ("[Link to Varsome Classification](" ++ u ++ ")") false)
          else emit (Warning "Error fetching VarSome data or variant not found.")
      | None => emit (Warning "Error fetching VarSome data or variant not found.")
      end
    else emit (Warning "Please enter a search term.")
  else pret tt.

(** *** render_page3 *)

(** [splice_ai_data['scores'][0][k]] *)
Definition splice_score (k : string) (splice_ai_data : json) : outcome json :=
  obind (getitem "scores" splice_ai_data) (fun s =>
  obind (getitem0 s) (fun s0 =>
  getitem k s0)).

Definition render_page3 (user_input : string) (clicked : bool) : Page unit :=
  _ <~ emit (Title "In Silico Predictions") ;;
  _ <~ emit (Write " ") ;;
  _ <~ emit (TextInput "Example variant format: 8-140300616-T-G" "Enter variant") ;;
  _ <~ emit (Button "Get SpliceAI and Revel Data") ;;
  if clicked then
    _ <~ emit (Write "Processing...") ;;
    splice_ai_data <~ call as_json (get_splice_ai_data user_input 38 500 1) ;;
    _ <~ match splice_ai_data with
         | Some d =>
             if negb (is_none d) then
               ag <~ plift (splice_score "DS_AG" d) ;;
               al <~ plift (splice_score "DS_AL" d) ;;
               dg <~ plift (splice_score "DS_DG" d) ;;
               dl <~ plift (splice_score "DS_DL" d) ;;
               emit_all [Write "SpliceAI Scores:";
                         TableJ [("Acceptor Gain", ag); ("Acceptor Loss", al);
                                 ("Donor Gain", dg); ("Donor Loss", dl)]]
             else emit (Write "Error retrieving SpliceAI data.")
         | None => emit (Write "Error retrieving SpliceAI data.")
         end ;;
    revel_result <~ call as_html (get_revel_score user_input) ;;
    _ <~ match revel_result with
         | Some ((_ :: _) as r) =>
             emit_all [Write "REVEL:";
                       TableS [("Ensemble_geneid", sdict_get "Ensembl_geneid" r);
                               ("Ensemble_transcriptid", sdict_get "Ensembl_transcriptid" r);
                               ("REVEL_score", sdict_get "REVEL_score" r);
                               ("REVEL_rankscore", sdict_get "REVEL_rankscore" r)]]
         | _ => emit (Write "No search results found for Revel.")
         end ;;
    ensembl_functional_data <~ call as_json (get_ensembl_functional_data user_input) ;;
    _ <~ emit (Subheader "Ensembl") ;;
    match ensembl_functional_data with
    | Some ((_ :: _) as d) => write_items d
    | _ => emit (Warning "Not enough information in the Ensembl response or structure is not as expected.")
    end
  else pret tt.

(** *** render_page4 *)

(** [d[k] = v] on a list of cells: an existing key keeps its position. *)
Fixpoint cell_set (k : string) (v : cell) (d : list (string * cell)) : list (string * cell) :=
  match d with
  | [] => [(k, v)]
  | (k', v') :: r => if String.eqb k k' then (k', v) :: r else (k', v') :: cell_set k v r
  end.

(** [data['allele_frequency'] = af] on a decoded record. *)
Definition set_allele_frequency (data : json) (af : option Q)
  : outcome (list (string * cell)) :=
  match data with
  | JDict kv => Ret (cell_set "allele_frequency" (CFreq af) (map (fun p => (fst p, CJson (snd p))) kv))
  | _ => Raise TypeError
  end.

Definition gnomad_variant_url : string := "https://gnomad.broadinstitute.org/variant/".

Definition render_page4 (hgvs_variant : string) (clicked : bool) : Page unit :=
  _ <~ emit (Title "Control/Case Frequency") ;;
  _ <~ emit (Write " ") ;;
  _ <~ emit (Header "GnomAD") ;;
  _ <~ emit (TextInput hgvs_label "") ;;
  _ <~ emit (Button "Search GnomAD") ;;
  if clicked then
    if negb (String.eqb hgvs_variant "") then
    result <~ call as_json (get_gnomad_data hgvs_variant) ;;
    match result with
    | Some (formatted_variant, genome_data, exome_data) =>
        genome_af <~ plift (Dashboard.allele_frequency genome_data) ;;
        genome_row <~ plift (set_allele_frequency genome_data genome_af) ;;
        exome_af <~ plift (Dashboard.allele_frequency exome_data) ;;
        exome_row <~ plift (set_allele_frequency exome_data exome_af) ;;
        let gnomad_link := gnomad_variant_url ++ formatted_variant in
        emit_all [Subheader "Results:";
                  WriteMany ["Formatted Variant for GnomAD Search:"; formatted_variant];
                  Subheader "GnomAD Genome Data:"; TextTable genome_row;
                  Subheader "GnomAD Exome Data:"; TextTable exome_row;
                  Write ("GnomAD Link: [" ++ formatted_variant ++ "](" ++ gnomad_link ++ ")")]
    | None => pret tt
    end
    else pret tt
  else pret tt.

(** *** render_page5 *)
Definition render_page5 (third_user_input : string) (clicked : bool) : Page unit :=
  _ <~ emit (Title "Literature Search") ;;
  _ <~ emit (Write "This is the content of Page 5.") ;;
  _ <~ emit (Header "PubMed") ;;
  _ <~ emit (TextInput "Search any variant or disease association in PubMed" "Search") ;;
  _ <~ emit (Button "Search Pubmed") ;;
  if clicked then
    if negb (String.eqb third_user_input "") then
      _ <~ emit (Write "Searching Pubmed...") ;;
      pubmed_results <~ call as_html (search_pubmed third_user_input) ;;
      match pubmed_results with
      | Some ((_ :: _) as l) => emit_all (map (fun result => Markdown result true) l)
      | _ => emit (Write "No search results found.")
      end
    else emit (Warning "Please enter a different text for Pubmed action.")
  else pret tt.

End Pages.

(** ** Sample services for the dashboard pages *)
Module PageSamples.
Import Json Requests Pages.

(** Every service answers 200 with an empty JSON list, an XML search result
    without ids, an empty HTML page and an empty text. *)
Definition quiet_net : request -> transport body :=
  fun _ => Resp 200%Z (mkBody (Some (JList [])) (Some (Xml.XElem "eSearchResult" None []))
                              (Html.HText "") "").

(** The VEP service places the variant at 8:100; gnomAD answers the query
    with [post_status] and a genome record with ac = 3, an = 6 and an exome
    record with ac = 0, an = 0. *)
Definition gnomad_net (post_status : Z) : request -> transport body :=
  fun r => match r with
           | Get _ =>
               Resp 200%Z (mkBody (Some (JList [JDict [("transcript_consequences", JList [JDict []]);
                                                      ("seq_region_name", JStr "8");
                                                      ("start", JInt 100)]]))
                                  None (Html.HText "") "")
           | _ =>
               Resp post_status
                 (mkBody (Some (JDict [("data", JDict [("variant", JDict
                            [("genome", JDict [("ac", JInt 3); ("an", JInt 6)]);
                             ("exome", JDict [("ac", JInt 0); ("an", JInt 0)])])])]))
                         None (Html.HText "") "")
           end.

End PageSamples.

(** ** Vocabulary for stating properties of the pages *)
Module PageSpec.
Import Json Pages.

(** The row render_page4 tabulates for a cohort record [kv] with allele
    frequency [af]: the [allele_frequency] column keeps its position when the
    record already has it and is appended last otherwise, it holds [af], and
    every other column holds the record's value. *)
Definition frequency_row (kv : list (string * json)) (af : option Q)
    (t : list (string * cell)) : Prop :=
  let cells := map (fun p => (fst p, CJson (snd p))) kv in
  (In "allele_frequency" (map fst kv) -> map fst t = map fst kv) /\
  (~ In "allele_frequency" (map fst kv) -> map fst t = app (map fst kv) ["allele_frequency"]) /\
  find (fun p => String.eqb (fst p) "allele_frequency") t = Some ("allele_frequency", CFreq af) /\
  (forall k, k <> "allele_frequency" ->
     find (fun p => String.eqb (fst p) k) t = find (fun p => String.eqb (fst p) k) cells).

End PageSpec.

(** * Properties *)
Import Py Json Requests Toolkit.

(** ** Monad facts *)
Lemma bind_ret_l {B A C} (a : A) (k : A -> IO B C) net :
  bind (ret a) k net = k a net.
Proof. unfold bind, ret; simpl. destruct (k a net); reflexivity. Qed.

Lemma functional_is_vep_lookup h net :
  get_ensembl_functional_data h net = vep_lookup project_functional h net.
Proof. reflexivity. Qed.

Lemma rest_is_vep_lookup h net :
  get_ensembl_rest_data h net = vep_lookup project_rest h net.
Proof. reflexivity. Qed.

Lemma coordinates_is_vep_lookup h net :
  get_genomic_coordinates h net = vep_lookup (project_coordinates h) h net.
Proof. reflexivity. Qed.

Lemma gnomad_is_vep_lookup h net :
  get_gnomad_data h net = vep_lookup (project_gnomad h) h net.
Proof. reflexivity. Qed.

Lemma vep_lookup_not_ok {A} (p : json -> json -> IO (option json) (option A)) h net s b :
  net (Get (vep_url h)) = Resp s b ->
  (400 <= s < 600)%Z ->
  vep_lookup p h net = ([Get (vep_url h)], Raise (HTTPError s)).
Proof.
  intros Hnet Hs.
  assert (Hb : ((400 <=? s)%Z && (s <? 600)%Z) = true).
  { apply andb_true_intro; split; [apply Z.leb_le | apply Z.ltb_lt]; lia. }
  unfold vep_lookup, bind, send, ok, raise_for_status, raise, ret; cbv beta.
  rewrite Hnet; cbn. rewrite Hb; cbn. reflexivity.
Qed.

Lemma ok_false_iff {B} (s : Z) (b : B) :
  ok (mkResponse s b) = false <-> (400 <= s < 600)%Z.
Proof.
  unfold ok; cbn. rewrite negb_false_iff, andb_true_iff, Z.leb_le, Z.ltb_lt.
  reflexivity.
Qed.

Lemma vep_lookup_guard_fails {A} (p : json -> json -> IO (option json) (option A))
  h net s decoded :
  net (Get (vep_url h)) = Resp s (Some decoded) ->
  ~ (400 <= s < 600)%Z ->
  Spec.guard_fails decoded ->
  vep_lookup p h net = ([Get (vep_url h)], Ret None).
Proof.
  intros Hnet Hs Hg.
  assert (Hb : ((400 <=? s)%Z && (s <? 600)%Z) = false).
  { destruct ((400 <=? s)%Z) eqn:E1, ((s <? 600)%Z) eqn:E2; try reflexivity.
    exfalso; apply Hs; rewrite Z.leb_le in E1; rewrite Z.ltb_lt in E2; lia. }
  unfold vep_lookup, bind, send, ok, raise_for_status, raise, ret, lift, resp_json;
    cbv beta.
  rewrite Hnet; cbn. rewrite Hb; cbn.
  destruct Hg as [-> | (d0 & rest & -> & Hc)]; cbn; [reflexivity |].
  rewrite Hc. cbn.
  match goal with |- context [if (1 <=? ?x)%Z then _ else _] => destruct (1 <=? x)%Z end;
    reflexivity.
Qed.

Ltac io_simpl :=
  unfold resp_json, raise_for_status, sys_exit, bind, lift, ret, raise, send in *;
  cbv beta in *; cbn in *.

Lemma project_functional_pure d0 tc net : fst (project_functional d0 tc net) = [].
Proof.
  unfold project_functional; io_simpl.
  destruct (get "sift_prediction" na tc); cbn; [| reflexivity].
  destruct (get "polyphen_prediction" na tc); reflexivity.
Qed.

Lemma project_rest_pure d0 tc net : fst (project_rest d0 tc net) = [].
Proof.
  unfold project_rest; io_simpl.
  repeat match goal with
         | |- context [match ?x with Ret _ => _ | Raise _ => _ end] =>
             destruct x; cbn; try reflexivity
         end.
Qed.

Lemma project_coordinates_pure h d0 tc net : fst (project_coordinates h d0 tc net) = [].
Proof.
  unfold project_coordinates; io_simpl.
  repeat match goal with
         | |- context [match ?x with Ret _ => _ | Raise _ => _ end] =>
             destruct x; cbn; try reflexivity
         end.
Qed.

(** C8: get_ensembl_functional_data, get_ensembl_rest_data and
    get_genomic_coordinates are each the one lookup [vep_lookup] (same
    endpoint built from the HGVS string, same status check, same decoding,
    same guard on [decoded] and [decoded[0]], same [None] when the guard
    fails) applied to a projection of [decoded[0]] and its first transcript
    consequence; the projections issue no request.  In particular, when the
    guard fails all three return [None] after the same single request. *)
Theorem vep_adapters_share_lookup :
  (forall h net,
      get_ensembl_functional_data h net = vep_lookup project_functional h net /\
      get_ensembl_rest_data h net = vep_lookup project_rest h net /\
      get_genomic_coordinates h net = vep_lookup (project_coordinates h) h net) /\
  (forall h d0 tc net,
      fst (project_functional d0 tc net) = [] /\
      fst (project_rest d0 tc net) = [] /\
      fst (project_coordinates h d0 tc net) = []) /\
  (forall h net s decoded,
      net (Get (vep_url h)) = Resp s (Some decoded) ->
      ~ (400 <= s < 600)%Z ->
      Spec.guard_fails decoded ->
      get_ensembl_functional_data h net = ([Get (vep_url h)], Ret None) /\
      get_ensembl_rest_data h net = ([Get (vep_url h)], Ret None) /\
      get_genomic_coordinates h net = ([Get (vep_url h)], Ret None)).
Proof.
  split; [| split].
  - intros h net.
    split; [apply functional_is_vep_lookup |].
    split; [apply rest_is_vep_lookup | apply coordinates_is_vep_lookup].
  - intros h d0 tc net.
    split; [apply project_functional_pure |].
    split; [apply project_rest_pure | apply project_coordinates_pure].
  - intros h net s decoded Hnet Hs Hg.
    rewrite functional_is_vep_lookup, rest_is_vep_lookup, coordinates_is_vep_lookup.
    split; [| split]; eapply vep_lookup_guard_fails; eassumption.
Qed.

Lemma vep_adapters_not_ok h net s b :
  net (Get (vep_url h)) = Resp s b ->
  ok (mkResponse s b) = false ->
  get_genomic_coordinates h net = ([Get (vep_url h)], Raise (HTTPError s)) /\
  get_ensembl_functional_data h net = ([Get (vep_url h)], Raise (HTTPError s)) /\
  get_ensembl_rest_data h net = ([Get (vep_url h)], Raise (HTTPError s)) /\
  get_gnomad_data h net = ([Get (vep_url h)], Raise (HTTPError s)).
Proof.
  intros Hnet Hok. apply ok_false_iff in Hok.
  rewrite coordinates_is_vep_lookup, functional_is_vep_lookup, rest_is_vep_lookup,
    gnomad_is_vep_lookup.
  repeat split; eapply vep_lookup_not_ok; eassumption.
Qed.

(** C9 (refuted as stated): on a 404 from the VEP service
    get_genomic_coordinates raises [HTTPError 404] to its caller; it does not
    terminate the process ([SystemExit]). *)
Lemma genomic_coordinates_404_raises_http_error :
  snd (get_genomic_coordinates "NM_000516.7:c.601C>T" (fun _ => Resp 404%Z None))
    = Raise (HTTPError 404) /\
  snd (get_genomic_coordinates "NM_000516.7:c.601C>T" (fun _ => Resp 404%Z None))
    <> Raise SystemExit.
Proof. vm_compute. split; [reflexivity | discriminate]. Qed.

(** C9 (amended): on every non-OK VEP response ([Response.ok] false, that is
    status 400-599) each of get_genomic_coordinates,
    get_ensembl_functional_data, get_ensembl_rest_data and get_gnomad_data
    raises [HTTPError] with that status to its caller after that single
    request: [raise_for_status()] always raises there, so the [sys.exit()]
    after it is never reached. *)
Theorem vep_not_ok_raises_http_error :
  forall h net s b,
    net (Get (vep_url h)) = Resp s b ->
    ok (mkResponse s b) = false ->
    get_genomic_coordinates h net = ([Get (vep_url h)], Raise (HTTPError s)) /\
    get_ensembl_functional_data h net = ([Get (vep_url h)], Raise (HTTPError s)) /\
    get_ensembl_rest_data h net = ([Get (vep_url h)], Raise (HTTPError s)) /\
    get_gnomad_data h net = ([Get (vep_url h)], Raise (HTTPError s)).
Proof. exact vep_adapters_not_ok. Qed.

Lemma vep_not_ok_raises_http_error_witness :
  ok (mkResponse 503%Z (None : option json)) = false /\
  snd (get_genomic_coordinates "NM_000516.7:c.601C>T" (fun _ => Resp 503%Z None))
    = Raise (HTTPError 503).
Proof.
  split; [reflexivity |].
  destruct (vep_not_ok_raises_http_error "NM_000516.7:c.601C>T"
              (fun _ => Resp 503%Z None) 503%Z None eq_refl eq_refl) as [H _].
  rewrite H. reflexivity.
Defined.


Lemma pubmed_failing q net :
  (forall r, Spec.failing (net r)) ->
  snd (search_pubmed q net) = Ret None.
Proof.
  intros Hf. unfold search_pubmed, try_except; io_simpl.
  match goal with |- context [net ?r] => specialize (Hf r); destruct (net r) as [| s b] end;
    cbn in *; [reflexivity |].
  rewrite (proj2 (Z.eqb_neq s 200) Hf). reflexivity.
Qed.



Lemma revel_run s d net :
  revel_input_data s = Ret d ->
  (net (PostForm url_select form_data_select) = NetError ->
   snd (get_revel_score s net) = Raise RequestException) /\
  (forall st1 b1,
     net (PostForm url_select form_data_select) = Resp st1 b1 ->
     (net (PostForm url_query (form_data_query d)) = NetError ->
      snd (get_revel_score s net) = Raise RequestException) /\
     (forall st2 b2,
        net (PostForm url_query (form_data_query d)) = Resp st2 b2 ->
        snd (get_revel_score s net)
        = if (st2 =? 200)%Z then revel_table b2 else Ret None)).
Proof.
  intros Hd. unfold get_revel_score, bind, lift, send, ret. rewrite Hd. cbv beta iota zeta.
  split; [intros H1; rewrite H1; reflexivity |].
  intros st1 b1 H1. rewrite H1. cbv beta iota zeta.
  split.
  - intros H2. rewrite H2. reflexivity.
  - intros st2 b2 H2. rewrite H2. cbn [status_code content negb].
    destruct (st2 =? 200)%Z; cbv beta iota zeta; [| reflexivity].
    destruct (revel_table b2); reflexivity.
Qed.







(** ** Splitting on a separator *)
Lemma split_nonempty sep s : PyStr.split sep s <> [].
Proof.
  destruct s as [| c r]; cbn; [discriminate |].
  destruct (Ascii.eqb c sep); [discriminate |].
  destruct (PyStr.split sep r); discriminate.
Qed.

Lemma split_no_sep sep x :
  Spec.has_char sep x = false -> PyStr.split sep x = [x].
Proof.
  induction x as [| c x IH]; intros H; [reflexivity |].
  cbn in H. apply orb_false_iff in H as [Hc Hx].
  cbn. rewrite Hc, (IH Hx). reflexivity.
Qed.

Lemma split_app_sep sep x y :
  Spec.has_char sep x = false ->
  PyStr.split sep (x ++ String sep y) = x :: PyStr.split sep y.
Proof.
  induction x as [| c x IH]; intros H.
  - cbn. rewrite Ascii.eqb_refl. reflexivity.
  - cbn in H. apply orb_false_iff in H as [Hc Hx].
    cbn. rewrite Hc, (IH Hx). reflexivity.
Qed.

(** C2: a positional identifier [C-P-R-A] whose four fields contain no dash
    splits into exactly [C; P; R; A], which become [chr], [pos], [ref], [alt]
    of [input_data] and of the query form in this order; a string whose split
    on "-" has not exactly four fields makes get_revel_score raise
    [ValueError] before any request is issued. *)
Theorem revel_positional_parse :
  (forall c p r a,
      Spec.has_char "-"%char c = false -> Spec.has_char "-"%char p = false ->
      Spec.has_char "-"%char r = false -> Spec.has_char "-"%char a = false ->
      PyStr.split "-"%char (c ++ "-" ++ p ++ "-" ++ r ++ "-" ++ a) = [c; p; r; a] /\
      revel_input_data (c ++ "-" ++ p ++ "-" ++ r ++ "-" ++ a)
        = Ret [("chr", c); ("pos", p); ("ref", r); ("alt", a);
               ("aaref", ""); ("aaalt", ""); ("Ensembl_transcriptid", "")] /\
      form_data_query [("chr", c); ("pos", p); ("ref", r); ("alt", a);
                       ("aaref", ""); ("aaalt", ""); ("Ensembl_transcriptid", "")]
        = [("chr", c); ("pos", p); ("ref", r); ("alt", a);
           ("aaref", ""); ("aaalt", ""); ("Ensembl_transcriptid", "")]) /\
  (forall s net,
      length (PyStr.split "-"%char s) <> 4%nat ->
      get_revel_score s net = ([], Raise (ValueError revel_format_error))).
Proof.
  split.
  - intros c p r a Hc Hp Hr Ha.
    assert (Hs : PyStr.split "-"%char (c ++ "-" ++ p ++ "-" ++ r ++ "-" ++ a)
                 = [c; p; r; a]).
    { change (c ++ "-" ++ p ++ "-" ++ r ++ "-" ++ a)
        with (c ++ String "-" (p ++ String "-" (r ++ String "-" a))).
      rewrite (split_app_sep _ _ _ Hc), (split_app_sep _ _ _ Hp),
        (split_app_sep _ _ _ Hr), (split_no_sep _ _ Ha).
      reflexivity. }
    split; [exact Hs |]. split; [| reflexivity].
    unfold revel_input_data. rewrite Hs. reflexivity.
  - intros s net H4. unfold get_revel_score, revel_input_data; io_simpl.
    apply Nat.eqb_neq in H4. rewrite H4. reflexivity.
Qed.

Lemma revel_positional_parse_witness :
  PyStr.split "-"%char "8-140300616-T-G" = ["8"; "140300616"; "T"; "G"] /\
  get_revel_score "8-140300616-T" (fun _ => NetError)
    = ([], Raise (ValueError revel_format_error)).
Proof.
  split.
  - apply (proj1 (proj1 revel_positional_parse "8" "140300616" "T" "G"
                    eq_refl eq_refl eq_refl eq_refl)).
  - apply (proj2 revel_positional_parse). vm_compute. discriminate.
Defined.

Lemma split_two_pieces sep x y :
  (2 <= length (PyStr.split sep (x ++ String sep y)))%nat.
Proof.
  induction x as [| c x IH]; cbn.
  - rewrite Ascii.eqb_refl. cbn.
    destruct (PyStr.split sep y) eqn:E; [exfalso; exact (split_nonempty _ _ E) |].
    cbn; lia.
  - destruct (Ascii.eqb c sep); cbn; [lia |].
    destruct (PyStr.split sep (x ++ String sep y)) as [| h t]; cbn in *; lia.
Qed.

Lemma str_app_assoc (a b c : string) : (a ++ b) ++ c = a ++ (b ++ c).
Proof. induction a as [| x a IH]; cbn; [reflexivity | rewrite IH; reflexivity]. Qed.

Lemma has_char_app sep x y :
  Spec.has_char sep (x ++ y) = Spec.has_char sep x || Spec.has_char sep y.
Proof.
  induction x as [| c x IH]; cbn; [reflexivity |]. rewrite IH, orb_assoc. reflexivity.
Qed.

(** [s.split(sep)[-1]] is the part of [s] after its last [sep] (all of [s]
    when [sep] does not occur). *)
Lemma last_piece_suffix sep s :
  exists pre, s = pre ++ PyStr.last_piece (PyStr.split sep s) /\
              Spec.has_char sep (PyStr.last_piece (PyStr.split sep s)) = false /\
              (pre = "" \/ exists p', pre = p' ++ String sep "").
Proof.
  unfold PyStr.last_piece.
  induction s as [| c r IH].
  - exists ""; cbn. repeat split. left; reflexivity.
  - destruct IH as (pre & Er & Hl & Hpre).
    cbn [PyStr.split].
    destruct (Ascii.eqb c sep) eqn:Ec.
    + apply Ascii.eqb_eq in Ec; subst c.
      destruct (PyStr.split sep r) as [| h t] eqn:Es;
        [exfalso; exact (split_nonempty _ _ Es) |].
      change (last ("" :: h :: t) "") with (last (h :: t) "").
      exists (String sep pre). split; [| split; [exact Hl |]].
      * rewrite Er at 1. reflexivity.
      * right. destruct Hpre as [-> | (p' & ->)].
        -- exists ""; reflexivity.
        -- exists (String sep p'); reflexivity.
    + destruct (PyStr.split sep r) as [| h t] eqn:Es;
        [exfalso; exact (split_nonempty _ _ Es) |].
      destruct t as [| h2 t].
      * (* r has no separator: the only piece is [String c h] *)
        cbn in Er, Hl |- *.
        destruct Hpre as [-> | (p' & ->)].
        -- exists ""; cbn in Er |- *. subst r. split; [reflexivity |].
           split; [rewrite Ec, Hl; reflexivity | left; reflexivity].
        -- exfalso. pose proof (split_two_pieces sep p' h) as H2.
           rewrite str_app_assoc in Er. cbn in Er. rewrite <- Er, Es in H2.
           cbn in H2. lia.
      * change (last (String c h :: h2 :: t) "") with (last (h2 :: t) "").
        change (last (h :: h2 :: t) "") with (last (h2 :: t) "") in Er, Hl.
        exists (String c pre). split; [rewrite Er at 1; reflexivity | split; [exact Hl |]].
        destruct Hpre as [-> | (p' & ->)].
        -- exfalso. cbn in Er.
           assert (Hr : Spec.has_char sep r = false) by (rewrite Er; exact Hl).
           rewrite (split_no_sep _ _ Hr) in Es. discriminate.
        -- right. exists (String c p'); reflexivity.
Qed.

(** Case analysis on a run of an adapter given as a hypothesis. *)
Ltac run_cases :=
  repeat (match goal with
          | H : context [match ?x with _ => _ end] |- _ => destruct x eqn:?
          end; cbn in *; try discriminate);
  repeat match goal with
         | H : (_, _) = (_, _) |- _ => injection H; clear H; intros; subst
         | H : Ret _ = Ret _ |- _ => injection H; clear H; intros; subst
         | H : Some _ = Some _ |- _ => injection H; clear H; intros; subst
         end;
  try discriminate.

Lemma coordinates_success h net l res :
  get_genomic_coordinates h net = (l, Ret (Some res)) ->
  exists chrom gstart,
    res = [("Chromosome", chrom); ("Start", gstart);
           ("VariantChange", JStr (variant_change_of h))].
Proof.
  rewrite coordinates_is_vep_lookup.
  unfold vep_lookup, project_coordinates, ok, raise_for_status, sys_exit; io_simpl.
  intros H. run_cases; eauto.
Qed.

Lemma gnomad_success h net l fv g e :
  get_gnomad_data h net = (l, Ret (Some (fv, g, e))) ->
  exists chrom gstart,
    fv = py_str chrom ++ "-" ++ py_str gstart ++ "-" ++ variant_change_of h.
Proof.
  rewrite gnomad_is_vep_lookup.
  unfold vep_lookup, project_gnomad, ok, raise_for_status, sys_exit; io_simpl.
  intros H. run_cases; eauto.
Qed.

(** C3: the variant-change extractor keeps the part of the HGVS string after
    its last ":", drops every digit, "." and lowercase "c" from it and turns
    each ">" into "-"; on "NM_000516.7:c.601C>T" it yields "C-T".  The same
    string is the [VariantChange] field of get_genomic_coordinates and the
    last component of the formatted variant of get_gnomad_data. *)
Theorem variant_change_extraction :
  variant_change_of "NM_000516.7:c.601C>T" = "C-T" /\
  (forall s, exists pre suf,
      s = pre ++ suf /\ Spec.has_char ":"%char suf = false /\
      (pre = "" \/ exists p', pre = p' ++ ":") /\
      variant_change_of s =
        PyStr.replace1 ">"%char "-"%char
          (PyStr.filter (fun c => negb (PyStr.isdigit c)
                                  && negb (Ascii.eqb c "."%char || Ascii.eqb c "c"%char))
                        suf)) /\
  (forall h net l res,
      get_genomic_coordinates h net = (l, Ret (Some res)) ->
      exists chrom gstart,
        res = [("Chromosome", chrom); ("Start", gstart);
               ("VariantChange", JStr (variant_change_of h))]) /\
  (forall h net l fv g e,
      get_gnomad_data h net = (l, Ret (Some (fv, g, e))) ->
      exists chrom gstart,
        fv = py_str chrom ++ "-" ++ py_str gstart ++ "-" ++ variant_change_of h).
Proof.
  split; [vm_compute; reflexivity |].
  split; [| split; [exact coordinates_success | exact gnomad_success]].
  intros s. destruct (last_piece_suffix ":"%char s) as (pre & Es & Hs & Hpre).
  exists pre, (PyStr.last_piece (PyStr.split ":"%char s)).
  split; [exact Es |]. split; [exact Hs |]. split; [exact Hpre | reflexivity].
Qed.

Lemma variant_change_extraction_witness :
  get_genomic_coordinates "NM_000516.7:c.601C>T" Spec.sample_net
    = ([Get (vep_url "NM_000516.7:c.601C>T")],
       Ret (Some [("Chromosome", JStr "20"); ("Start", JInt 58909365);
                  ("VariantChange", JStr "C-T")])) /\
  exists chrom gstart,
    [("Chromosome", JStr "20"); ("Start", JInt 58909365); ("VariantChange", JStr "C-T")]
    = [("Chromosome", chrom); ("Start", gstart);
       ("VariantChange", JStr (variant_change_of "NM_000516.7:c.601C>T"))].
Proof.
  split; [vm_compute; reflexivity |].
  apply (proj1 (proj2 (proj2 variant_change_extraction)) "NM_000516.7:c.601C>T"
           Spec.sample_net [Get (vep_url "NM_000516.7:c.601C>T")]).
  vm_compute; reflexivity.
Defined.

(** ** Python's [int / int] *)
Section TrueDivision.
Local Open Scope Z_scope.












End TrueDivision.





Lemma pubmed_no_anchor q net b :
  (forall r, net r = Resp 200%Z b) ->
  Html.find_all ["a"] (Some "docsum-title") b = [] ->
  snd (search_pubmed q net) = Ret (Some no_search_results).
Proof.
  intros Hn Hf. unfold search_pubmed, try_except; io_simpl.
  match goal with |- context [net ?r] => rewrite (Hn r) end. cbn.
  rewrite Hf. reflexivity.
Qed.

(** C5: search_pubmed returns the sentinel list ["No search results found."]
    (not empty, not [None]) on a 200 response with no [a.docsum-title]
    anchor, and [None] on a connection error or a status other than 200. *)
Theorem pubmed_empty_vs_failure :
  no_search_results <> [] /\
  (forall q net b,
      (forall r, net r = Resp 200%Z b) ->
      Html.find_all ["a"] (Some "docsum-title") b = [] ->
      snd (search_pubmed q net) = Ret (Some no_search_results)) /\
  (forall q net, (forall r, Spec.failing (net r)) ->
      snd (search_pubmed q net) = Ret None).
Proof.
  split; [discriminate |].
  split; [exact pubmed_no_anchor | exact pubmed_failing].
Qed.

Lemma pubmed_empty_vs_failure_witness :
  snd (search_pubmed "GNAS variant"
         (fun _ => Resp 200%Z (Html.HElem "[document]" [] [] [Html.HText "none"])))
    = Ret (Some no_search_results) /\
  snd (search_pubmed "GNAS variant" (fun _ => Resp 503%Z (Html.HText "")))
    = Ret None.
Proof.
  split.
  - apply (proj1 (proj2 pubmed_empty_vs_failure)) with
      (b := Html.HElem "[document]" [] [] [Html.HText "none"]); reflexivity.
  - apply (proj2 (proj2 pubmed_empty_vs_failure)). intros r. cbn. discriminate.
Defined.

(** C7: get_clinvar_classification fails at each stage on its own: a search
    reply with no [Id] element gives [None] after that single request; a
    summary reply with no [description] element gives [None] after the two
    requests; and a classification tuple is returned only when the search
    reply has an [Id] element and the summary reply for that id has both a
    [description] and a [review_status] element, the tuple being their texts
    and the record's link. *)
Theorem clinvar_two_stage_failures :
  (forall v net s x,
      net (Get (clinvar_search_url v)) = Resp s (Some x) ->
      Xml.find "Id" x = None ->
      get_clinvar_classification v net = ([Get (clinvar_search_url v)], Ret None)) /\
  (forall v net s x e s2 y,
      net (Get (clinvar_search_url v)) = Resp s (Some x) ->
      Xml.find "Id" x = Some e ->
      net (Get (clinvar_summary_url (fstr_text (Xml.text e)))) = Resp s2 (Some y) ->
      Xml.find "description" y = None ->
      get_clinvar_classification v net
        = ([Get (clinvar_search_url v); Get (clinvar_summary_url (fstr_text (Xml.text e)))],
           Ret None)) /\
  (forall v net l t,
      get_clinvar_classification v net = (l, Ret (Some t)) ->
      exists s x e s2 y d rv,
        net (Get (clinvar_search_url v)) = Resp s (Some x) /\
        Xml.find "Id" x = Some e /\
        net (Get (clinvar_summary_url (fstr_text (Xml.text e)))) = Resp s2 (Some y) /\
        Xml.find "description" y = Some d /\
        Xml.find "review_status" y = Some rv /\
        t = (Xml.text d, Xml.text rv,
             "https://www.ncbi.nlm.nih.gov/clinvar/" ++ fstr_text (Xml.text e))).
Proof.
  split; [| split].
  - intros v net s x Hnet Hid.
    unfold get_clinvar_classification, bind, send; cbv beta. rewrite Hnet.
    unfold lift, ret; cbn. rewrite Hid. reflexivity.
  - intros v net s x e s2 y Hnet Hid Hnet2 Hd.
    unfold get_clinvar_classification, bind, send; cbv beta. rewrite Hnet.
    unfold lift at 1; cbv beta iota. cbn [Xml.fromstring content]. rewrite Hid.
    cbv beta iota. rewrite Hnet2.
    unfold lift, ret; cbn. rewrite Hd. reflexivity.
  - intros v net l t H.
    unfold get_clinvar_classification, bind, send, lift, ret, raise,
      Xml.fromstring, content in H; cbv beta iota zeta in H.
    destruct (net (Get (clinvar_search_url v))) as [| s [x |]] eqn:E1;
      cbv beta iota zeta in H; try discriminate.
    destruct (Xml.find "Id" x) as [e |] eqn:Eid; cbv beta iota zeta in H;
      try discriminate.
    destruct (net (Get (clinvar_summary_url (fstr_text (Xml.text e)))))
      as [| s2 [y |]] eqn:E2; cbv beta iota zeta in H; try discriminate.
    destruct (Xml.find "description" y) as [d |] eqn:Ed; cbv beta iota zeta in H;
      try discriminate.
    destruct (Xml.find "review_status" y) as [rv |] eqn:Er; cbv beta iota zeta in H;
      try discriminate.
    injection H as _ <-.
    exists s, x, e, s2, y, d, rv. repeat split; assumption.
Qed.

Lemma clinvar_two_stage_failures_witness :
  get_clinvar_classification "NM_000516.7:c.601C>T"
    (fun _ => Resp 200%Z (Some (Xml.XElem "eSearchResult" None
                                  [Xml.XElem "Count" (Some "0") []; Xml.XElem "IdList" None []])))
  = ([Get (clinvar_search_url "NM_000516.7:c.601C>T")], Ret None).
Proof.
  apply (proj1 clinvar_two_stage_failures) with
    (s := 200%Z)
    (x := Xml.XElem "eSearchResult" None
            [Xml.XElem "Count" (Some "0") []; Xml.XElem "IdList" None []]);
    reflexivity.
Defined.

Lemma gnomad_post_not_200 h net l o r st b :
  get_gnomad_data h net = (l, o) ->
  In r l ->
  (exists p, r = PostJson gnomad_api_url p) ->
  net r = Resp st b ->
  st <> 200%Z ->
  o = Ret None.
Proof.
  rewrite gnomad_is_vep_lookup.
  unfold vep_lookup, project_gnomad, ok, raise_for_status, sys_exit; io_simpl.
  intros H HIn [p ->] Hr Hst. run_cases.
  all: try reflexivity.
  all: repeat rewrite ?app_nil_l, ?app_nil_r in HIn; cbn [In app] in HIn.
  all: repeat match type of HIn with
              | _ \/ _ => destruct HIn as [HIn | HIn]
              | False => contradiction
              end; try discriminate.
  all: injection HIn as <-.
  all: repeat match goal with E : (_ =? 200)%Z = true |- _ => apply Z.eqb_eq in E end.
  all: cbn [status_code content] in *; congruence.
Qed.

(** C10: get_gnomad_data returns [None] without the gnomAD query when the
    decoded VEP reply (of an OK response) is an empty list or a list whose
    first element is a dictionary without [transcript_consequences]; it also
    returns [None] when the gnomAD query it issued gets a status other than
    200, so [None] does not tell the two failures apart. *)
Theorem gnomad_none_ambiguous :
  (forall h net s decoded,
      net (Get (vep_url h)) = Resp s (Some decoded) ->
      ~ (400 <= s < 600)%Z ->
      (decoded = JList [] \/
       exists kv rest, decoded = JList (JDict kv :: rest) /\
                       lookup "transcript_consequences" kv = None) ->
      get_gnomad_data h net = ([Get (vep_url h)], Ret None)) /\
  (forall h net l o r st b,
      get_gnomad_data h net = (l, o) ->
      In r l ->
      (exists p, r = PostJson gnomad_api_url p) ->
      net r = Resp st b ->
      st <> 200%Z ->
      o = Ret None).
Proof.
  split; [| exact gnomad_post_not_200].
  intros h net s decoded Hnet Hs Hd.
  rewrite gnomad_is_vep_lookup. eapply vep_lookup_guard_fails; [eassumption | eassumption |].
  destruct Hd as [-> | (kv & rest & -> & Hk)]; [left; reflexivity |].
  right. exists (JDict kv), rest. split; [reflexivity |]. cbn. rewrite Hk. reflexivity.
Qed.

Lemma gnomad_none_ambiguous_witness :
  get_gnomad_data "NM_000516.7:c.601C>T" (fun _ => Resp 200%Z (Some (JList [])))
    = ([Get (vep_url "NM_000516.7:c.601C>T")], Ret None) /\
  snd (get_gnomad_data "NM_000516.7:c.601C>T" Spec.gnomad_down_net) = Ret None.
Proof.
  split.
  - apply (proj1 gnomad_none_ambiguous) with (s := 200%Z) (decoded := JList []);
      [reflexivity | lia | left; reflexivity].
  - apply (proj2 gnomad_none_ambiguous "NM_000516.7:c.601C>T" Spec.gnomad_down_net
                  (fst (get_gnomad_data "NM_000516.7:c.601C>T" Spec.gnomad_down_net))
                  (snd (get_gnomad_data "NM_000516.7:c.601C>T" Spec.gnomad_down_net))
                  (PostJson gnomad_api_url (gnomad_query_params "20-58909365-C-T"))
                  502%Z None).
    + apply surjective_pairing.
    + vm_compute. right; left; reflexivity.
    + eexists; reflexivity.
    + reflexivity.
    + discriminate.
Defined.

(** ** The REVEL table and [dict(zip(headers, data))] *)

Lemma dict_set_fresh k v d :
  ~ In k (map fst d) -> dict_set k v d = app d [(k, v)].
Proof.
  induction d as [| [k' v'] d IH]; cbn; intros Hn; [reflexivity |].
  destruct (String.eqb_spec k k') as [-> | Hne]; [exfalso; apply Hn; left; reflexivity |].
  rewrite IH; [reflexivity | intros Hi; apply Hn; right; exact Hi].
Qed.

Lemma fold_dict_set_fresh pairs acc :
  NoDup (map fst (app acc pairs)) ->
  fold_left (fun d kv => dict_set (fst kv) (snd kv) d) pairs acc = app acc pairs.
Proof.
  revert acc. induction pairs as [| [k v] pairs IH]; intros acc Hnd; cbn.
  - rewrite app_nil_r. reflexivity.
  - rewrite dict_set_fresh.
    + rewrite IH; [rewrite <- app_assoc; reflexivity |].
      rewrite <- app_assoc. exact Hnd.
    + rewrite map_app in Hnd. cbn in Hnd.
      intros Hi. apply NoDup_remove_2 in Hnd. apply Hnd, in_or_app. left; exact Hi.
Qed.

(** A [dict] built from pairs with distinct keys is the list of pairs. *)
Lemma py_dict_distinct pairs : NoDup (map fst pairs) -> py_dict pairs = pairs.
Proof. intros H. exact (fold_dict_set_fresh pairs [] H). Qed.

Lemma map_fst_combine {A B} (a : list A) (b : list B) :
  length a = length b -> map fst (combine a b) = a.
Proof.
  revert b. induction a as [| x a IH]; intros [| y b] H; cbn in *; try discriminate; [reflexivity |].
  rewrite IH; [reflexivity | lia].
Qed.

Lemma map_snd_combine {A B} (a : list A) (b : list B) :
  length a = length b -> map snd (combine a b) = b.
Proof.
  revert b. induction a as [| x a IH]; intros [| y b] H; cbn in *; try discriminate; [reflexivity |].
  rewrite IH; [reflexivity | lia].
Qed.

Lemma map_fst_combine_firstn {A B} (a : list A) (b : list B) :
  map fst (combine a b) = firstn (length b) a.
Proof.
  revert b. induction a as [| x a IH]; intros [| y b]; cbn; try reflexivity.
  rewrite IH. reflexivity.
Qed.

Lemma In_keys_dict_set k v d x :
  In x (map fst (dict_set k v d)) <-> x = k \/ In x (map fst d).
Proof.
  induction d as [| [k' v'] d IH]; cbn.
  - split; [intros [-> | []]; left; reflexivity | intros [-> | []]; left; reflexivity].
  - destruct (String.eqb_spec k k') as [-> | Hne]; cbn.
    + split; [intros H; right; exact H | intros [-> | H]; [left; reflexivity | exact H]].
    + rewrite IH. tauto.
Qed.

Lemma NoDup_dict_set k v d : NoDup (map fst d) -> NoDup (map fst (dict_set k v d)).
Proof.
  induction d as [| [k' v'] d IH]; cbn; intros Hnd.
  - constructor; [intros [] | constructor].
  - inversion Hnd as [| ? ? Hn Hnd']; subst.
    destruct (String.eqb_spec k k') as [-> | Hne]; cbn; [exact Hnd |].
    constructor; [| exact (IH Hnd')].
    rewrite In_keys_dict_set. intros [E | H]; [congruence | contradiction].
Qed.

Lemma In_dict_set k v d k' v' :
  NoDup (map fst d) ->
  In (k', v') (dict_set k v d) <-> (k' = k /\ v' = v) \/ (k' <> k /\ In (k', v') d).
Proof.
  induction d as [| [k0 v0] d IH]; cbn; intros Hnd.
  - split.
    + intros [E | []]. injection E as -> ->. left; split; reflexivity.
    + intros [[-> ->] | [_ []]]. left; reflexivity.
  - inversion Hnd as [| ? ? Hn Hnd']; subst.
    destruct (String.eqb_spec k k0) as [-> | Hne]; cbn.
    + split.
      * intros [E | H].
        -- injection E as -> ->. left; split; reflexivity.
        -- right. split; [| right; exact H].
           intros ->. apply Hn. apply (in_map fst) in H. exact H.
      * intros [[-> ->] | [Hk [E | H]]]; [left; reflexivity | | right; exact H].
        injection E as -> ->. congruence.
    + rewrite (IH Hnd'). split.
      * intros [E | [[-> ->] | [Hk H]]].
        -- injection E as -> ->. right. split; [congruence | left; reflexivity].
        -- left; split; reflexivity.
        -- right. split; [exact Hk | right; exact H].
      * intros [[-> ->] | [Hk [E | H]]].
        -- right. left; split; reflexivity.
        -- left. exact E.
        -- right. right. split; [exact Hk | exact H].
Qed.

Lemma fold_dict_set_In pairs acc k v :
  NoDup (map fst acc) ->
  In (k, v) (fold_left (fun d kv => dict_set (fst kv) (snd kv) d) pairs acc) <->
  (exists pre post, pairs = app pre ((k, v) :: post) /\ ~ In k (map fst post)) \/
  (~ In k (map fst pairs) /\ In (k, v) acc).
Proof.
  revert acc. induction pairs as [| [k0 v0] rest IH]; intros acc Hnd; cbn [fold_left fst snd].
  - split.
    + intros H. right. split; [intros [] | exact H].
    + intros [(pre & post & E & _) | [_ H]]; [| exact H].
      destruct pre; discriminate.
  - rewrite (IH _ (NoDup_dict_set k0 v0 acc Hnd)), (In_dict_set k0 v0 acc k v Hnd).
    split.
    + intros [(pre & post & E & Hk) | [Hk [[-> ->] | [Hne H]]]].
      * left. exists ((k0, v0) :: pre), post. rewrite E. split; [reflexivity | exact Hk].
      * left. exists [], rest. split; [reflexivity | exact Hk].
      * right. split; [cbn; intros [E | E]; [congruence | contradiction] | exact H].
    + intros [(pre & post & E & Hk) | [Hk H]].
      * destruct pre as [| p pre].
        -- cbn in E. injection E as -> -> ->. right. split; [exact Hk |].
           left; split; reflexivity.
        -- cbn in E. injection E as <- ->. left. exists pre, post. split; [reflexivity | exact Hk].
      * cbn in Hk. right. split; [intros H'; apply Hk; right; exact H' |].
        right. split; [intros E; apply Hk; left; congruence | exact H].
Qed.

Lemma fold_dict_set_keys pairs acc :
  NoDup (map fst acc) ->
  NoDup (map fst (fold_left (fun d kv => dict_set (fst kv) (snd kv) d) pairs acc)) /\
  (forall x, In x (map fst (fold_left (fun d kv => dict_set (fst kv) (snd kv) d) pairs acc))
             <-> In x (map fst acc) \/ In x (map fst pairs)).
Proof.
  revert acc. induction pairs as [| [k0 v0] rest IH]; intros acc Hnd; cbn [fold_left fst snd].
  - split; [exact Hnd | intros x; cbn; tauto].
  - destruct (IH _ (NoDup_dict_set k0 v0 acc Hnd)) as [H1 H2].
    split; [exact H1 |]. intros x. rewrite H2, In_keys_dict_set. cbn. split; intuition (subst; auto).
Qed.

(** A [dict] built from a list of pairs holds a pair [(k, v)] when the last
    pair with key [k] is [(k, v)]; its keys are distinct and are the keys of
    the pairs. *)
Lemma py_dict_In pairs k v :
  In (k, v) (py_dict pairs) <->
  exists pre post, pairs = app pre ((k, v) :: post) /\ ~ In k (map fst post).
Proof.
  unfold py_dict. rewrite (fold_dict_set_In pairs [] k v (NoDup_nil _)).
  split; [intros [H | [_ []]]; exact H | intros H; left; exact H].
Qed.

Lemma py_dict_keys pairs :
  NoDup (map fst (py_dict pairs)) /\
  (forall k, In k (map fst (py_dict pairs)) <-> In k (map fst pairs)).
Proof.
  unfold py_dict. destruct (fold_dict_set_keys pairs [] (NoDup_nil _)) as [H1 H2].
  split; [exact H1 | intros k; rewrite H2; cbn; tauto].
Qed.

(** The table scraping of get_revel_score on a page whose first table is
    [table]. *)
Lemma revel_table_rows soup table :
  Html.find ["table"] soup = Some table ->
  revel_table soup
  = Ret (hd_error (tl (map (row_dict (map (fun h => PyStr.strip (Html.text h))
                                          (Html.find_all ["th"] (Some "w3-blue") table)))
                           (Html.find_all ["tr"] None table)))).
Proof. intros H. unfold revel_table. rewrite H. reflexivity. Qed.

(** C6 (refuted as stated): the mapping built from a table with one header
    row and one data row need not have the header texts as its keys.  With
    three header cells and a data row of two cells, [zip] stops at the
    shorter row and the key [REVEL_score] is missing; with a repeated header
    text, [dict] keeps that key once, with the later value. *)
Lemma revel_row_keys_differ_from_headers :
  snd (get_revel_score "7-117559590-ATCT-A"
         (fun _ => Resp 200%Z (Spec.revel_page ["chr"; "pos"; "REVEL_score"]
                                               [["7"; "117559590"]])))
    = Ret (Some [("chr", "7"); ("pos", "117559590")]) /\
  snd (get_revel_score "7-117559590-ATCT-A"
         (fun _ => Resp 200%Z (Spec.revel_page ["REVEL_score"; "REVEL_score"]
                                               [["0.1"; "0.9"]])))
    = Ret (Some [("REVEL_score", "0.9")]).
Proof. split; vm_compute; reflexivity. Qed.

(** C6 (amended): take a 200 reply to the query post (whatever the reply
    to the first post) whose first table has exactly two [tr] rows.
    get_revel_score drops the first row and returns, for the second,
    [dict(zip(headers, cells))]: [headers] are the stripped texts of the
    table's [w3-blue] header cells, [cells] the stripped texts of the second
    row's [td]/[th] cells.  When [headers] and [cells] have the same length
    and the headers are distinct, this mapping is [zip(headers, cells)]
    itself: its keys are the headers and its values the cells, pairwise by
    position.  With fewer than two [tr] rows it returns [None].  In general,
    [zip] stops at the shorter list, so the pairs are those of the first
    [len(cells)] headers, and a [dict] holds [(k, v)] exactly when [(k, v)]
    is the last pair with key [k]; its keys are distinct and are the keys
    of the pairs. *)
Theorem revel_single_row_mapping :
  (forall s d net st1 b1 soup table hs hrow drow,
     revel_input_data s = Ret d ->
     net (PostForm url_select form_data_select) = Resp st1 b1 ->
     net (PostForm url_query (form_data_query d)) = Resp 200%Z soup ->
     Html.find ["table"] soup = Some table ->
     map (fun h => PyStr.strip (Html.text h)) (Html.find_all ["th"] (Some "w3-blue") table) = hs ->
     Html.find_all ["tr"] None table = [hrow; drow] ->
     snd (get_revel_score s net) = Ret (Some (py_dict (combine hs (row_cells drow)))) /\
     (length hs = length (row_cells drow) -> NoDup hs ->
        py_dict (combine hs (row_cells drow)) = combine hs (row_cells drow) /\
        map fst (combine hs (row_cells drow)) = hs /\
        map snd (combine hs (row_cells drow)) = row_cells drow)) /\
  (forall s d net st1 b1 soup table,
     revel_input_data s = Ret d ->
     net (PostForm url_select form_data_select) = Resp st1 b1 ->
     net (PostForm url_query (form_data_query d)) = Resp 200%Z soup ->
     Html.find ["table"] soup = Some table ->
     (length (Html.find_all ["tr"] None table) <= 1)%nat ->
     snd (get_revel_score s net) = Ret None) /\
  (forall (hs cells : list string), map fst (combine hs cells) = firstn (length cells) hs) /\
  (forall pairs k v,
     In (k, v) (py_dict pairs) <->
     exists pre post, pairs = app pre ((k, v) :: post) /\ ~ In k (map fst post)) /\
  (forall pairs,
     NoDup (map fst (py_dict pairs)) /\
     (forall k, In k (map fst (py_dict pairs)) <-> In k (map fst pairs))).
Proof.
  split; [| split; [| split; [| split]]].
  - intros s d net st1 b1 soup table hs hrow drow Hd H1 H2 Ht Hh Hr.
    rewrite (proj2 (proj2 (revel_run s d net Hd) st1 b1 H1) 200%Z soup H2).
    change (200 =? 200)%Z with true. cbv beta iota.
    rewrite (revel_table_rows soup table Ht), Hh, Hr. cbn [map tl hd_error].
    split; [reflexivity |].
    intros Hl Hnd.
    rewrite py_dict_distinct by (rewrite map_fst_combine by exact Hl; exact Hnd).
    split; [reflexivity |].
    split; [apply map_fst_combine | apply map_snd_combine]; exact Hl.
  - intros s d net st1 b1 soup table Hd H1 H2 Ht Hl.
    rewrite (proj2 (proj2 (revel_run s d net Hd) st1 b1 H1) 200%Z soup H2).
    change (200 =? 200)%Z with true. cbv beta iota.
    rewrite (revel_table_rows soup table Ht).
    destruct (Html.find_all ["tr"] None table) as [| r1 [| r2 rs]];
      [reflexivity | reflexivity | cbn in Hl; lia].
  - intros hs cells. apply map_fst_combine_firstn.
  - exact py_dict_In.
  - exact py_dict_keys.
Qed.

Lemma revel_single_row_mapping_witness :
  snd (get_revel_score "7-117559590-ATCT-A"
         (Spec.revel_net (Spec.revel_document Spec.revel_header_row [Spec.revel_data_row])))
    = Ret (Some [("chr", "7"); ("pos", "117559590"); ("REVEL_score", "0.312")]) /\
  snd (get_revel_score "7-117559590-ATCT-A"
         (Spec.revel_net (Spec.revel_document Spec.revel_header_row [])))
    = Ret None.
Proof.
  split.
  - rewrite (proj1 (proj1 revel_single_row_mapping "7-117559590-ATCT-A"
                     [("chr", "7"); ("pos", "117559590"); ("ref", "ATCT"); ("alt", "A");
                      ("aaref", ""); ("aaalt", ""); ("Ensembl_transcriptid", "")]
                     (Spec.revel_net (Spec.revel_document Spec.revel_header_row
                                        [Spec.revel_data_row]))
                     200%Z (Html.HText "")
                     (Spec.revel_document Spec.revel_header_row [Spec.revel_data_row])
                     (Spec.revel_result_table Spec.revel_header_row [Spec.revel_data_row])
                     ["chr"; "pos"; "REVEL_score"]
                     Spec.revel_header_row Spec.revel_data_row
                     ltac:(vm_compute; reflexivity) ltac:(vm_compute; reflexivity)
                     ltac:(vm_compute; reflexivity) ltac:(vm_compute; reflexivity)
                     ltac:(vm_compute; reflexivity) ltac:(vm_compute; reflexivity))).
    vm_compute. reflexivity.
  - apply (proj1 (proj2 revel_single_row_mapping) "7-117559590-ATCT-A"
             [("chr", "7"); ("pos", "117559590"); ("ref", "ATCT"); ("alt", "A");
              ("aaref", ""); ("aaalt", ""); ("Ensembl_transcriptid", "")]
             (Spec.revel_net (Spec.revel_document Spec.revel_header_row []))
             200%Z (Html.HText "")
             (Spec.revel_document Spec.revel_header_row [])
             (Spec.revel_result_table Spec.revel_header_row [])
             ltac:(vm_compute; reflexivity) ltac:(vm_compute; reflexivity)
             ltac:(vm_compute; reflexivity) ltac:(vm_compute; reflexivity)
             ltac:(vm_compute; lia)).
Defined.

(** * Further properties of the toolkit *)

Lemma splice_ai_run v hg dist m net :
  let url := splice_base_url ++ "?hg=" ++ PyStr.of_Z hg ++ "&distance=" ++ PyStr.of_Z dist
             ++ "&mask=" ++ PyStr.of_Z m ++ "&variant=" ++ v in
  get_splice_ai_data v hg dist m net
  = ([Get url],
     match net (Get url) with
     | Resp s (Some j) => if (s =? 200)%Z then Ret (Some j) else Ret None
     | _ => Ret None
     end).
Proof.
  cbv zeta. unfold get_splice_ai_data, try_except, bind, send, ret, resp_json, raise.
  cbv beta zeta.
  match goal with |- context [net ?r] => destruct (net r) as [| s [j |]] end;
    cbn [content status_code is_request_exception app];
    try reflexivity; destruct (s =? 200)%Z; reflexivity.
Qed.

(** X1: get_splice_ai_data issues exactly one GET, to the URL built from its
    four parameters, and returns the decoded reply exactly when the reply has
    status 200 and a JSON body; on any other status, a transport failure or a
    200 reply that is not JSON it returns [None]. *)
Theorem splice_ai_result v hg dist m net :
  let url := splice_base_url ++ "?hg=" ++ PyStr.of_Z hg ++ "&distance=" ++ PyStr.of_Z dist
             ++ "&mask=" ++ PyStr.of_Z m ++ "&variant=" ++ v in
  get_splice_ai_data v hg dist m net
  = ([Get url],
     match net (Get url) with
     | Resp s (Some j) => if (s =? 200)%Z then Ret (Some j) else Ret None
     | _ => Ret None
     end).
Proof.
  exact (splice_ai_run v hg dist m net).
Qed.

(** X2: get_clinvar_classification catches nothing: a transport failure or a
    reply that is not well-formed XML, at either of its two requests, raises
    [RequestException] or the XML parse error to the caller, after the
    requests issued so far. *)
Theorem clinvar_errors_propagate v net :
  (net (Get (clinvar_search_url v)) = NetError ->
   get_clinvar_classification v net
   = ([Get (clinvar_search_url v)], Raise RequestException)) /\
  (forall s,
     net (Get (clinvar_search_url v)) = Resp s None ->
     get_clinvar_classification v net = ([Get (clinvar_search_url v)], Raise ParseError)) /\
  (forall s x e,
     net (Get (clinvar_search_url v)) = Resp s (Some x) ->
     Xml.find "Id" x = Some e ->
     net (Get (clinvar_summary_url (fstr_text (Xml.text e)))) = NetError ->
     get_clinvar_classification v net
     = ([Get (clinvar_search_url v); Get (clinvar_summary_url (fstr_text (Xml.text e)))],
        Raise RequestException)) /\
  (forall s x e s2,
     net (Get (clinvar_search_url v)) = Resp s (Some x) ->
     Xml.find "Id" x = Some e ->
     net (Get (clinvar_summary_url (fstr_text (Xml.text e)))) = Resp s2 None ->
     get_clinvar_classification v net
     = ([Get (clinvar_search_url v); Get (clinvar_summary_url (fstr_text (Xml.text e)))],
        Raise ParseError)).
Proof.
  repeat split; intros; unfold get_clinvar_classification, bind, send, lift, ret, raise;
    cbv beta zeta;
    repeat match goal with H : net _ = _ |- _ => rewrite H; cbv beta iota zeta; clear H end;
    cbn [Xml.fromstring content];
    repeat match goal with H : Xml.find _ _ = _ |- _ => rewrite H; clear H end;
    cbv beta iota zeta;
    repeat match goal with H : net _ = _ |- _ => rewrite H; clear H end;
    reflexivity.
Qed.

Lemma clinvar_errors_propagate_witness :
  get_clinvar_classification "NM_000516.7:c.601C>T" (fun _ => Resp 502%Z None)
  = ([Get (clinvar_search_url "NM_000516.7:c.601C>T")], Raise ParseError).
Proof.
  apply (proj1 (proj2 (clinvar_errors_propagate "NM_000516.7:c.601C>T"
                        (fun _ => Resp 502%Z None))) 502%Z).
  reflexivity.
Defined.

(** X3: when the summary reply has a [description] element but no
    [review_status] element, get_clinvar_classification raises
    [AttributeError] (reading [.text] of [None]) instead of returning. *)
Theorem clinvar_missing_review_status v net s x e s2 y d :
  net (Get (clinvar_search_url v)) = Resp s (Some x) ->
  Xml.find "Id" x = Some e ->
  net (Get (clinvar_summary_url (fstr_text (Xml.text e)))) = Resp s2 (Some y) ->
  Xml.find "description" y = Some d ->
  Xml.find "review_status" y = None ->
  get_clinvar_classification v net
  = ([Get (clinvar_search_url v); Get (clinvar_summary_url (fstr_text (Xml.text e)))],
     Raise AttributeError).
Proof.
  intros H1 Hid H2 Hd Hr.
  unfold get_clinvar_classification, bind, send, lift, ret, raise; cbv beta zeta.
  rewrite H1; cbv beta iota zeta. cbn [Xml.fromstring content]. rewrite Hid.
  cbv beta iota zeta. rewrite H2; cbv beta iota zeta. cbn [Xml.fromstring content].
  rewrite Hd, Hr. reflexivity.
Qed.

Lemma clinvar_missing_review_status_witness :
  get_clinvar_classification "NM_000516.7:c.601C>T"
    (fun r => match r with
              | Get u =>
                  if String.eqb u (clinvar_search_url "NM_000516.7:c.601C>T")
                  then Resp 200%Z (Some (Xml.XElem "eSearchResult" None
                                          [Xml.XElem "IdList" None
                                             [Xml.XElem "Id" (Some "12345") []]]))
                  else Resp 200%Z (Some (Xml.XElem "eSummaryResult" None
                                          [Xml.XElem "description" (Some "Pathogenic") []]))
              | _ => NetError
              end)
  = ([Get (clinvar_search_url "NM_000516.7:c.601C>T"); Get (clinvar_summary_url "12345")],
     Raise AttributeError).
Proof.
  apply (clinvar_missing_review_status _ _ 200%Z
           (Xml.XElem "eSearchResult" None
              [Xml.XElem "IdList" None [Xml.XElem "Id" (Some "12345") []]])
           (Xml.XElem "Id" (Some "12345") []) 200%Z
           (Xml.XElem "eSummaryResult" None
              [Xml.XElem "description" (Some "Pathogenic") []])
           (Xml.XElem "description" (Some "Pathogenic") []));
    vm_compute; reflexivity.
Defined.

(** X4: get_varsome_data_url issues one GET, to
    [https://varsome.com/variant/<assembly>/<variant>?annotation-mode=<mode>],
    and returns that URL exactly when the reply has status 200, whatever its
    body; on another status or a transport failure it returns [None]. *)
Theorem varsome_result v a m net :
  let api_url := "https://varsome.com/variant/" ++ (a ++ "/" ++ v)
                 ++ "?annotation-mode=" ++ m in
  get_varsome_data_url v a m net
  = ([Get api_url],
     match net (Get api_url) with
     | Resp s _ => if (s =? 200)%Z then Ret (Some api_url) else Ret None
     | NetError => Ret None
     end).
Proof.
  cbv zeta. unfold get_varsome_data_url, try_except, bind, send, ret.
  cbv beta zeta.
  match goal with |- context [net ?r] => destruct (net r) as [| s b] end;
    cbn [content status_code is_request_exception app]; [reflexivity |].
  destruct (s =? 200)%Z; reflexivity.
Qed.

(** X5: for a well-formed input, get_revel_score posts the selection form,
    then the query form built from the input, and nothing else.  The reply
    to the first post is never looked at, except that a transport failure
    there raises [RequestException] before the query is sent.  The result
    depends only on the reply to the query: [None] on a status other than
    200, the table scraping of its page on 200. *)
Theorem revel_score_requests s d net :
  revel_input_data s = Ret d ->
  (net (PostForm url_select form_data_select) = NetError ->
   get_revel_score s net = ([PostForm url_select form_data_select], Raise RequestException)) /\
  (forall st1 b1,
     net (PostForm url_select form_data_select) = Resp st1 b1 ->
     fst (get_revel_score s net)
       = [PostForm url_select form_data_select; PostForm url_query (form_data_query d)] /\
     (net (PostForm url_query (form_data_query d)) = NetError ->
      snd (get_revel_score s net) = Raise RequestException) /\
     (forall st2 b2,
        net (PostForm url_query (form_data_query d)) = Resp st2 b2 ->
        snd (get_revel_score s net)
        = if (st2 =? 200)%Z then revel_table b2 else Ret None)).
Proof.
  intros Hd. unfold get_revel_score, bind, lift, send, ret. rewrite Hd. cbv beta iota zeta.
  split; [intros H1; rewrite H1; reflexivity |].
  intros st1 b1 H1. rewrite H1. cbv beta iota zeta.
  repeat split.
  - destruct (net (PostForm url_query (form_data_query d))) as [| st2 b2];
      [reflexivity |]. cbn [status_code content].
    destruct (negb (st2 =? 200)%Z); [reflexivity |].
    destruct (revel_table b2); reflexivity.
  - intros H2. rewrite H2. reflexivity.
  - intros st2 b2 H2. rewrite H2. cbn [status_code content negb].
    destruct (st2 =? 200)%Z; cbv beta iota zeta; [| reflexivity].
    destruct (revel_table b2); reflexivity.
Qed.

Lemma revel_score_requests_witness :
  fst (get_revel_score "7-124842898-G-T"
         (fun r => match r with
                   | PostForm u _ => if String.eqb u url_select then Resp 500%Z (Html.HText "")
                                     else Resp 404%Z (Html.HText "")
                   | _ => NetError
                   end))
  = [PostForm url_select form_data_select;
     PostForm url_query [("chr", "7"); ("pos", "124842898"); ("ref", "G"); ("alt", "T");
                         ("aaref", ""); ("aaalt", ""); ("Ensembl_transcriptid", "")]].
Proof.
  match goal with |- context [get_revel_score _ ?n] =>
    apply (proj1 (proj2 (revel_score_requests "7-124842898-G-T"
                          [("chr", "7"); ("pos", "124842898"); ("ref", "G"); ("alt", "T");
                           ("aaref", ""); ("aaalt", ""); ("Ensembl_transcriptid", "")]
                          n ltac:(vm_compute; reflexivity)) 500%Z (Html.HText "")
                          ltac:(vm_compute; reflexivity)))
  end.
Defined.

(** X6: on a 200 reply to the query post (whatever the reply to the first
    post) whose first table has no [w3-blue] header cells and at least two
    [tr] rows, get_revel_score returns the empty mapping (not [None]):
    [zip] with no headers pairs nothing. *)
Theorem revel_no_blue_headers s d net st1 b1 soup table hrow drow rest :
  revel_input_data s = Ret d ->
  net (PostForm url_select form_data_select) = Resp st1 b1 ->
  net (PostForm url_query (form_data_query d)) = Resp 200%Z soup ->
  Html.find ["table"] soup = Some table ->
  Html.find_all ["th"] (Some "w3-blue") table = [] ->
  Html.find_all ["tr"] None table = hrow :: drow :: rest ->
  snd (get_revel_score s net) = Ret (Some []).
Proof.
  intros Hd H1 H2 Ht Hh Hr.
  rewrite (proj2 (proj2 (revel_run s d net Hd) st1 b1 H1) 200%Z soup H2).
  change (200 =? 200)%Z with true. cbv beta iota.
  rewrite (revel_table_rows soup table Ht), Hh, Hr. reflexivity.
Qed.

Lemma revel_no_blue_headers_witness :
  snd (get_revel_score "7-117559590-ATCT-A"
         (Spec.revel_net (Spec.revel_document Spec.plain_header_row [Spec.revel_data_row])))
  = Ret (Some []).
Proof.
  apply (revel_no_blue_headers "7-117559590-ATCT-A"
           [("chr", "7"); ("pos", "117559590"); ("ref", "ATCT"); ("alt", "A");
            ("aaref", ""); ("aaalt", ""); ("Ensembl_transcriptid", "")]
           (Spec.revel_net (Spec.revel_document Spec.plain_header_row [Spec.revel_data_row]))
           200%Z (Html.HText "")
           (Spec.revel_document Spec.plain_header_row [Spec.revel_data_row])
           (Spec.revel_result_table Spec.plain_header_row [Spec.revel_data_row])
           Spec.plain_header_row Spec.revel_data_row []);
    vm_compute; reflexivity.
Defined.

(** ** The link loop of search_pubmed *)

Lemma build_links_ok anchors hrefs acc net :
  Forall2 (fun a h => Html.getattr_item "href" a = Ret h) anchors hrefs ->
  build_links anchors acc net
  = ([], Ret (app acc (map (fun p => link_html (pubmed_base_url ++ snd p) (Html.text (fst p)))
                           (combine anchors hrefs)))).
Proof.
  intros H. revert acc. induction H as [| a h anchors hrefs Ha _ IH]; intros acc.
  - cbn. rewrite app_nil_r. reflexivity.
  - cbn [build_links]. unfold bind, lift at 1. rewrite Ha. cbv beta iota zeta.
    rewrite IH. cbn [app map combine fst snd]. rewrite <- app_assoc. reflexivity.
Qed.

Lemma getattr_item_exn k a e : Html.getattr_item k a = Raise e -> is_exception e = true.
Proof.
  destruct a as [tg c attrs ch | t]; cbn; [| intros H; injection H as <-; reflexivity].
  destruct (Html.attr_lookup k attrs); intros H; [discriminate | injection H as <-; reflexivity].
Qed.

Lemma build_links_exn anchors acc net e :
  snd (build_links anchors acc net) = Raise e -> is_exception e = true.
Proof.
  revert acc. induction anchors as [| a anchors IH]; intros acc; cbn [build_links].
  - unfold ret. discriminate.
  - unfold bind, lift at 1.
    destruct (Html.getattr_item "href" a) as [h | e'] eqn:Ea; cbv beta iota zeta.
    + destruct (build_links anchors _ net) as [l2 o2] eqn:E. cbn [snd].
      intros ->. apply (IH (app acc [link_html (pubmed_base_url ++ h) (Html.text a)])).
      rewrite E. reflexivity.
    + cbn [snd]. intros H; injection H as <-. exact (getattr_item_exn _ _ _ Ea).
Qed.

Lemma build_links_missing anchors acc net a e :
  In a anchors -> Html.getattr_item "href" a = Raise e ->
  exists e', snd (build_links anchors acc net) = Raise e'.
Proof.
  revert acc. induction anchors as [| a' anchors IH]; intros acc Hin Ha; [destruct Hin |].
  cbn [build_links]. unfold bind, lift at 1.
  destruct (Html.getattr_item "href" a') as [h | e'] eqn:Ea; cbv beta iota zeta.
  - destruct Hin as [-> | Hin]; [congruence |].
    destruct (IH (app acc [link_html (pubmed_base_url ++ h) (Html.text a')]) Hin Ha)
      as [e'' He].
    destruct (build_links anchors _ net) as [l2 o2]. cbn [snd] in *. subst o2. eauto.
  - eexists; reflexivity.
Qed.

Lemma build_links_log anchors acc net : fst (build_links anchors acc net) = [].
Proof.
  revert acc. induction anchors as [| a anchors IH]; intros acc; cbn [build_links];
    [reflexivity |].
  unfold bind, lift at 1. destruct (Html.getattr_item "href" a); cbv beta iota zeta;
    [| reflexivity].
  specialize (IH (app acc [link_html (pubmed_base_url ++ a0) (Html.text a)])).
  destruct (build_links anchors _ net). cbn in *. subst. reflexivity.
Qed.

(** X7: on a 200 reply in which every [docsum-title] anchor has an [href],
    search_pubmed returns one HTML link per anchor, in page order, to the
    PubMed base URL followed by the anchor's [href], with the anchor's text
    as title; the one request is the GET of the search URL, whose query has
    each space replaced by [+]. *)
Theorem pubmed_result_links q net b anchors hrefs :
  net (Get (pubmed_base_url ++ "/?term=" ++ PyStr.replace1 " "%char "+"%char q))
    = Resp 200%Z b ->
  Html.find_all ["a"] (Some "docsum-title") b = anchors ->
  anchors <> [] ->
  Forall2 (fun a h => Html.getattr_item "href" a = Ret h) anchors hrefs ->
  search_pubmed q net
  = ([Get (pubmed_base_url ++ "/?term=" ++ PyStr.replace1 " "%char "+"%char q)],
     Ret (Some (map (fun p => link_html (pubmed_base_url ++ snd p) (Html.text (fst p)))
                    (combine anchors hrefs)))).
Proof.
  intros Hnet Hfind Hne Hh.
  unfold search_pubmed, try_except, bind, send, ret. cbv beta zeta.
  rewrite Hnet. cbn [status_code content]. cbv beta iota zeta.
  change (200 =? 200)%Z with true. cbv beta iota zeta. rewrite Hfind.
  destruct anchors as [| a rest]; [congruence |]. cbv beta iota zeta.
  rewrite (build_links_ok _ _ [] net Hh). cbv beta iota zeta. reflexivity.
Qed.

Lemma pubmed_result_links_witness :
  search_pubmed "BRCA1 c.68"
    (fun _ => Resp 200%Z
       (Html.HElem "[document]" [] []
          [Html.HElem "a" ["docsum-title"] [("href", "/123/")] [Html.HText "A study"]]))
  = ([Get (pubmed_base_url ++ "/?term=BRCA1+c.68")],
     Ret (Some [link_html "https://pubmed.ncbi.nlm.nih.gov/123/" "A study"])).
Proof.
  match goal with |- search_pubmed _ ?n = _ =>
    rewrite (pubmed_result_links "BRCA1 c.68" n
               (Html.HElem "[document]" [] []
                  [Html.HElem "a" ["docsum-title"] [("href", "/123/")] [Html.HText "A study"]])
               [Html.HElem "a" ["docsum-title"] [("href", "/123/")] [Html.HText "A study"]]
               ["/123/"] eq_refl eq_refl ltac:(discriminate)
               ltac:(constructor; [reflexivity | constructor]))
  end.
  vm_compute. reflexivity.
Defined.

Lemma pubmed_total q net : exists r, snd (search_pubmed q net) = Ret r.
Proof.
  unfold search_pubmed, try_except, bind, send, ret. cbv beta zeta.
  match goal with |- context [net ?r] => destruct (net r) as [| s b] end;
    cbv beta iota zeta; [eexists; reflexivity |].
  cbn [status_code content].
  destruct (s =? 200)%Z; cbv beta iota zeta; [| eexists; reflexivity].
  destruct (Html.find_all ["a"] (Some "docsum-title") b) as [| a rest];
    cbv beta iota zeta; [eexists; reflexivity |].
  destruct (build_links (a :: rest) [] net) as [l2 o2] eqn:E.
  destruct o2 as [links | e]; cbv beta iota zeta; [eexists; reflexivity |].
  assert (He : is_exception e = true)
    by (apply (build_links_exn (a :: rest) [] net); rewrite E; reflexivity).
  rewrite He. eexists; reflexivity.
Qed.

Lemma pubmed_log q net :
  fst (search_pubmed q net)
  = [Get (pubmed_base_url ++ "/?term=" ++ PyStr.replace1 " "%char "+"%char q)].
Proof.
  unfold search_pubmed, try_except, bind, send, ret. cbv beta zeta.
  match goal with |- context [net ?r] => destruct (net r) as [| s b] end;
    cbv beta iota zeta; [reflexivity |].
  cbn [status_code content].
  destruct (s =? 200)%Z; cbv beta iota zeta; [| reflexivity].
  destruct (Html.find_all ["a"] (Some "docsum-title") b) as [| a rest];
    cbv beta iota zeta; [reflexivity |].
  pose proof (build_links_log (a :: rest) [] net) as Hl.
  destruct (build_links (a :: rest) [] net) as [l2 o2]. cbn in Hl; subst l2.
  destruct o2 as [links | e]; cbv beta iota zeta; [reflexivity |].
  destruct (is_exception e); reflexivity.
Qed.

(** X8: search_pubmed never lets an exception out, whatever the network
    does; in particular a [docsum-title] anchor without an [href] on a 200
    page makes it return [None] rather than the other links. *)
Theorem pubmed_never_raises :
  (forall q net, exists r, snd (search_pubmed q net) = Ret r) /\
  (forall q net b a e,
     net (Get (pubmed_base_url ++ "/?term=" ++ PyStr.replace1 " "%char "+"%char q))
       = Resp 200%Z b ->
     In a (Html.find_all ["a"] (Some "docsum-title") b) ->
     Html.getattr_item "href" a = Raise e ->
     snd (search_pubmed q net) = Ret None).
Proof.
  split.
  - exact pubmed_total.
  - intros q net b a e Hnet Hin Ha.
    unfold search_pubmed, try_except, bind, send, ret. cbv beta zeta.
    rewrite Hnet. cbn [status_code content]. change (200 =? 200)%Z with true.
    cbv beta iota zeta.
    destruct (Html.find_all ["a"] (Some "docsum-title") b) as [| a0 rest] eqn:Ef;
      [destruct Hin |].
    cbv beta iota zeta.
    destruct (build_links_missing (a0 :: rest) [] net a e Hin Ha) as [e' He'].
    pose proof (build_links_exn (a0 :: rest) [] net e' He') as Hx.
    destruct (build_links (a0 :: rest) [] net) as [l2 o2]. cbn [snd] in He'. subst o2.
    cbv beta iota zeta. rewrite Hx. reflexivity.
Qed.

Lemma pubmed_never_raises_witness :
  snd (search_pubmed "BRCA1"
         (fun _ => Resp 200%Z
            (Html.HElem "[document]" [] []
               [Html.HElem "a" ["docsum-title"] [("href", "/1/")] [Html.HText "One"];
                Html.HElem "a" ["docsum-title"] [] [Html.HText "Two"]])))
  = Ret None.
Proof.
  apply (proj2 pubmed_never_raises) with
    (b := Html.HElem "[document]" [] []
            [Html.HElem "a" ["docsum-title"] [("href", "/1/")] [Html.HText "One"];
             Html.HElem "a" ["docsum-title"] [] [Html.HText "Two"]])
    (a := Html.HElem "a" ["docsum-title"] [] [Html.HText "Two"]) (e := KeyError).
  - reflexivity.
  - right; left; reflexivity.
  - reflexivity.
Defined.

(** ** The shared VEP lookup past its status check *)

Lemma not_http_error_status s :
  ~ (400 <= s < 600)%Z -> ((400 <=? s)%Z && (s <? 600)%Z) = false.
Proof.
  intros Hs. destruct ((400 <=? s)%Z) eqn:E1, ((s <? 600)%Z) eqn:E2; try reflexivity.
  exfalso; apply Hs; rewrite Z.leb_le in E1; rewrite Z.ltb_lt in E2; lia.
Qed.

Lemma vep_lookup_not_json {A} (p : json -> json -> IO (option json) (option A)) h net s :
  net (Get (vep_url h)) = Resp s None ->
  ~ (400 <= s < 600)%Z ->
  vep_lookup p h net = ([Get (vep_url h)], Raise RJSONDecodeError).
Proof.
  intros Hnet Hs.
  unfold vep_lookup, bind, send, ok, raise_for_status, raise, ret, lift, resp_json;
    cbv beta.
  rewrite Hnet; cbn -[vep_url]. rewrite (not_http_error_status s Hs); cbn -[vep_url]. reflexivity.
Qed.

Lemma vep_lookup_first_consequence {A} (p : json -> json -> IO (option json) (option A))
  h net s kv rest tcs :
  net (Get (vep_url h)) = Resp s (Some (JList (JDict kv :: rest))) ->
  ~ (400 <= s < 600)%Z ->
  lookup "transcript_consequences" kv = Some tcs ->
  vep_lookup p h net
  = match getitem0 tcs with
    | Ret tc => let (l, o) := p (JDict kv) tc net in (app [Get (vep_url h)] l, o)
    | Raise e => ([Get (vep_url h)], Raise e)
    end.
Proof.
  intros Hnet Hs Hk.
  unfold vep_lookup, bind, send, ok, raise_for_status, raise, ret, lift, resp_json;
    cbv beta.
  rewrite Hnet; cbn -[vep_url]. rewrite (not_http_error_status s Hs); cbn -[vep_url].
  match goal with |- context [(1 <=? Z.pos ?q)%Z] =>
    replace (1 <=? Z.pos q)%Z with true by (symmetry; apply Z.leb_le; lia) end.
  cbn -[vep_url]. rewrite Hk. cbn -[vep_url].
  destruct (getitem0 tcs) as [tc | e]; cbn -[vep_url]; [| reflexivity].
  destruct (p (JDict kv) tc net); reflexivity.
Qed.

(** X9: each of the four functions that query the VEP service raises the
    JSON decoding error (a [RequestException], uncaught) when the service
    answers with a status outside 400-599 and a body that is not JSON; only
    the one request has been issued. *)
Theorem vep_adapters_not_json h net s :
  net (Get (vep_url h)) = Resp s None ->
  ~ (400 <= s < 600)%Z ->
  get_ensembl_functional_data h net = ([Get (vep_url h)], Raise RJSONDecodeError) /\
  get_ensembl_rest_data h net = ([Get (vep_url h)], Raise RJSONDecodeError) /\
  get_genomic_coordinates h net = ([Get (vep_url h)], Raise RJSONDecodeError) /\
  get_gnomad_data h net = ([Get (vep_url h)], Raise RJSONDecodeError).
Proof.
  intros Hnet Hs.
  rewrite functional_is_vep_lookup, rest_is_vep_lookup, coordinates_is_vep_lookup,
    gnomad_is_vep_lookup.
  repeat split; apply (vep_lookup_not_json _ h net s Hnet Hs).
Qed.

Lemma vep_adapters_not_json_witness :
  get_genomic_coordinates "NM_000516.7:c.601C>T" (fun _ => Resp 200%Z None)
  = ([Get (vep_url "NM_000516.7:c.601C>T")], Raise RJSONDecodeError).
Proof.
  apply (vep_adapters_not_json "NM_000516.7:c.601C>T" (fun _ => Resp 200%Z None) 200%Z
           eq_refl ltac:(lia)).
Defined.

(** X10: when the first record of the VEP reply has a
    [transcript_consequences] key whose list is empty, the guard passes and
    each of the four VEP functions raises [IndexError] at
    [decoded[0]['transcript_consequences'][0]]; get_gnomad_data does not
    reach the gnomAD query. *)
Theorem vep_adapters_empty_consequences h net s kv rest :
  net (Get (vep_url h)) = Resp s (Some (JList (JDict kv :: rest))) ->
  ~ (400 <= s < 600)%Z ->
  lookup "transcript_consequences" kv = Some (JList []) ->
  get_ensembl_functional_data h net = ([Get (vep_url h)], Raise IndexError) /\
  get_ensembl_rest_data h net = ([Get (vep_url h)], Raise IndexError) /\
  get_genomic_coordinates h net = ([Get (vep_url h)], Raise IndexError) /\
  get_gnomad_data h net = ([Get (vep_url h)], Raise IndexError).
Proof.
  intros Hnet Hs Hk.
  rewrite functional_is_vep_lookup, rest_is_vep_lookup, coordinates_is_vep_lookup,
    gnomad_is_vep_lookup.
  repeat split; rewrite (vep_lookup_first_consequence _ h net s kv rest _ Hnet Hs Hk);
    reflexivity.
Qed.

Lemma vep_adapters_empty_consequences_witness :
  get_ensembl_rest_data "NM_000516.7:c.601C>T"
    (fun _ => Resp 200%Z (Some (JList [JDict [("transcript_consequences", JList [])]])))
  = ([Get (vep_url "NM_000516.7:c.601C>T")], Raise IndexError).
Proof.
  apply (vep_adapters_empty_consequences "NM_000516.7:c.601C>T"
           (fun _ => Resp 200%Z (Some (JList [JDict [("transcript_consequences", JList [])]])))
           200%Z [("transcript_consequences", JList [])] [] eq_refl ltac:(lia) eq_refl).
Defined.

Lemma get_dict k kv : get k na (JDict kv) = Ret (Pages.get_na k kv).
Proof. reflexivity. Qed.

(** X11: when the VEP reply is accepted and the first transcript consequence
    of its first record is a dictionary, the three VEP projections succeed
    after the one request: each field is read from that consequence or from
    the record, and a missing key gives "N/A". *)
Theorem vep_adapters_fields h net s kv rest tkv trest :
  net (Get (vep_url h)) = Resp s (Some (JList (JDict kv :: rest))) ->
  ~ (400 <= s < 600)%Z ->
  lookup "transcript_consequences" kv = Some (JList (JDict tkv :: trest)) ->
  get_ensembl_functional_data h net
  = ([Get (vep_url h)],
     Ret (Some [("SIFT Prediction", Pages.get_na "sift_prediction" tkv);
                ("PolyPhen Prediction", Pages.get_na "polyphen_prediction" tkv)])) /\
  get_ensembl_rest_data h net
  = ([Get (vep_url h)],
     Ret (Some [("Gene Symbol", Pages.get_na "gene_symbol" tkv);
                ("Assembly Name", Pages.get_na "assembly_name" kv);
                ("Chromosome", Pages.get_na "seq_region_name" kv);
                ("Genomic Start", Pages.get_na "start" kv);
                ("Genomic End", Pages.get_na "end" kv);
                ("Most Severe Consequence", Pages.get_na "most_severe_consequence" kv);
                ("Protein Start", Pages.get_na "protein_start" tkv);
                ("Protein End", Pages.get_na "protein_end" tkv);
                ("Amino Acids", Pages.get_na "amino_acids" tkv)])) /\
  get_genomic_coordinates h net
  = ([Get (vep_url h)],
     Ret (Some [("Chromosome", Pages.get_na "seq_region_name" kv);
                ("Start", Pages.get_na "start" kv);
                ("VariantChange", JStr (variant_change_of h))])).
Proof.
  intros Hnet Hs Hk.
  rewrite functional_is_vep_lookup, rest_is_vep_lookup, coordinates_is_vep_lookup.
  repeat split; rewrite (vep_lookup_first_consequence _ h net s kv rest _ Hnet Hs Hk);
    cbn [getitem0];
    unfold project_functional, project_rest, project_coordinates, bind, lift, ret;
    rewrite ?get_dict; reflexivity.
Qed.

Lemma vep_adapters_fields_witness :
  get_ensembl_functional_data "NM_000516.7:c.601C>T"
    (fun _ => Resp 200%Z (Some (JList [JDict [("transcript_consequences",
       JList [JDict [("sift_prediction", JStr "deleterious")]])]])))
  = ([Get (vep_url "NM_000516.7:c.601C>T")],
     Ret (Some [("SIFT Prediction", JStr "deleterious");
                ("PolyPhen Prediction", JStr "N/A")])).
Proof.
  apply (vep_adapters_fields "NM_000516.7:c.601C>T"
    (fun _ => Resp 200%Z (Some (JList [JDict [("transcript_consequences",
       JList [JDict [("sift_prediction", JStr "deleterious")]])]])))
    200%Z [("transcript_consequences", JList [JDict [("sift_prediction", JStr "deleterious")]])]
    [] [("sift_prediction", JStr "deleterious")] [] eq_refl ltac:(lia) eq_refl).
Defined.

(** X12: once the VEP reply is accepted, get_gnomad_data posts one GraphQL
    query for the formatted variant chromosome-start-change (with "N/A" for
    a missing chromosome or start); a transport failure raises, a status
    other than 200 gives [None], and a 200 reply yields
    [data["data"]["variant"]["genome"]] and [...["exome"]], each lookup
    raising as Python's subscript does. *)
Theorem gnomad_query_result h net s kv rest tc trest :
  net (Get (vep_url h)) = Resp s (Some (JList (JDict kv :: rest))) ->
  ~ (400 <= s < 600)%Z ->
  lookup "transcript_consequences" kv = Some (JList (tc :: trest)) ->
  let fv := py_str (Pages.get_na "seq_region_name" kv) ++ "-"
            ++ py_str (Pages.get_na "start" kv) ++ "-" ++ variant_change_of h in
  get_gnomad_data h net
  = ([Get (vep_url h); PostJson gnomad_api_url (gnomad_query_params fv)],
     match net (PostJson gnomad_api_url (gnomad_query_params fv)) with
     | NetError => Raise RequestException
     | Resp st b =>
         if (st =? 200)%Z then
           match b with
           | None => Raise RJSONDecodeError
           | Some data =>
               Pages.obind (getitem "data" data) (fun dd =>
               Pages.obind (getitem "variant" dd) (fun dv =>
               Pages.obind (getitem "genome" dv) (fun g =>
               Pages.obind (getitem "exome" dv) (fun x => Ret (Some (fv, g, x))))))
           end
         else Ret None
     end).
Proof.
  intros Hnet Hs Hk fv.
  rewrite gnomad_is_vep_lookup.
  rewrite (vep_lookup_first_consequence _ h net s kv rest _ Hnet Hs Hk).
  cbn [getitem0].
  unfold project_gnomad, bind, lift, ret, send, resp_json, raise; rewrite !get_dict.
  cbv beta zeta. fold fv.
  destruct (net (PostJson gnomad_api_url (gnomad_query_params fv))) as [| st b];
    [reflexivity |].
  cbn [status_code content].
  destruct ((st =? 200)%Z); [| reflexivity].
  destruct b as [data |]; unfold ret, raise; cbv beta iota zeta; [| reflexivity].
  unfold Pages.obind.
  destruct (getitem "data" data); [| reflexivity].
  destruct (getitem "variant" _); [| reflexivity].
  destruct (getitem "genome" _); [| reflexivity].
  destruct (getitem "exome" _); reflexivity.
Qed.

Lemma gnomad_query_result_witness :
  get_gnomad_data "NM_000516.7:c.601C>T"
    (fun r => match r with
              | Get _ => Resp 200%Z (Some (JList [JDict [("transcript_consequences", JList [JNull]);
                                                  ("seq_region_name", JStr "8");
                                                  ("start", JInt 100)]]))
              | _ => Resp 200%Z (Some (JDict [("data", JDict [("variant", JNull)])]))
              end)
  = ([Get (vep_url "NM_000516.7:c.601C>T");
      PostJson gnomad_api_url (gnomad_query_params "8-100-C-T")], Raise TypeError).
Proof.
  match goal with |- get_gnomad_data _ ?n = _ =>
    rewrite (gnomad_query_result "NM_000516.7:c.601C>T" n 200%Z
           [("transcript_consequences", JList [JNull]); ("seq_region_name", JStr "8");
            ("start", JInt 100)] [] JNull [] eq_refl ltac:(lia) eq_refl) end.
  vm_compute; reflexivity.
Defined.

(** X13: the allele frequency of render_page4 reads [an] first: a missing
    [an] raises, an [an] equal to 0 (or False) gives [None] without reading
    [ac] (which may then be missing), a non-zero [an] with a missing [ac]
    raises, and a non-numeric [an] or [ac] raises [TypeError]. *)
Theorem allele_frequency_edges d :
  (forall e, getitem "an" d = Raise e -> Dashboard.allele_frequency d = Raise e) /\
  (forall an, getitem "an" d = Ret an -> py_int an = Some 0%Z ->
     Dashboard.allele_frequency d = Ret None) /\
  (forall an e, getitem "an" d = Ret an -> py_int an <> Some 0%Z ->
     getitem "ac" d = Raise e -> Dashboard.allele_frequency d = Raise e) /\
  (forall an ac, getitem "an" d = Ret an -> py_int an <> Some 0%Z ->
     getitem "ac" d = Ret ac -> (py_int ac = None \/ py_int an = None) ->
     Dashboard.allele_frequency d = Raise TypeError).
Proof.
  unfold Dashboard.allele_frequency, Dashboard.ne_zero, Dashboard.truediv.
  repeat split.
  - intros e H. rewrite H. reflexivity.
  - intros an H H0. rewrite H, H0. reflexivity.
  - intros an e H H0 H1. rewrite H, H1.
    destruct (py_int an) as [z |]; [| reflexivity].
    destruct (z =? 0)%Z eqn:E; [| reflexivity].
    apply Z.eqb_eq in E; subst. contradiction.
  - intros an ac H H0 H1 H2. rewrite H, H1.
    destruct (py_int an) as [z |] eqn:Ea.
    + destruct (z =? 0)%Z eqn:E.
      * apply Z.eqb_eq in E; subst. contradiction.
      * cbn. destruct H2 as [-> | Hn]; [reflexivity | discriminate].
    + cbn. destruct (py_int ac); reflexivity.
Qed.

Lemma allele_frequency_edges_witness :
  Dashboard.allele_frequency (JDict [("an", JInt 0)]) = Ret None /\
  Dashboard.allele_frequency (JDict [("an", JInt 5)]) = Raise KeyError.
Proof.
  split.
  - apply (proj1 (proj2 (allele_frequency_edges (JDict [("an", JInt 0)]))) (JInt 0)
             eq_refl eq_refl).
  - apply (proj1 (proj2 (proj2 (allele_frequency_edges (JDict [("an", JInt 5)]))))
             (JInt 5) KeyError eq_refl ltac:(discriminate) eq_refl).
Defined.

(** [data['allele_frequency'] = af] on the cells of a record: the column
    keeps its position when the record already has it and is appended last
    otherwise; looking it up gives the new value, and every other column is
    unchanged. *)
Lemma cell_set_spec k v d :
  (In k (map fst d) -> map fst (Pages.cell_set k v d) = map fst d) /\
  (~ In k (map fst d) -> map fst (Pages.cell_set k v d) = app (map fst d) [k]) /\
  find (fun p => String.eqb (fst p) k) (Pages.cell_set k v d) = Some (k, v) /\
  (forall k2, k2 <> k ->
     find (fun p => String.eqb (fst p) k2) (Pages.cell_set k v d)
     = find (fun p => String.eqb (fst p) k2) d).
Proof.
  induction d as [| [k' v'] r IH]; cbn.
  - split; [intros [] |]. split; [reflexivity |]. split.
    + rewrite String.eqb_refl. reflexivity.
    + intros k2 Hk. rewrite String.eqb_sym. apply String.eqb_neq in Hk. rewrite Hk.
      reflexivity.
  - destruct IH as (IH1 & IH2 & IH3 & IH4).
    destruct (String.eqb k k') eqn:E.
    + apply String.eqb_eq in E; subst k'.
      repeat split; cbn; try reflexivity.
      * intros []; auto.
      * rewrite String.eqb_refl. reflexivity.
      * intros k2 Hk. rewrite String.eqb_sym. apply String.eqb_neq in Hk. rewrite Hk.
        reflexivity.
    + apply String.eqb_neq in E.
      repeat split; cbn.
      * intros [H | H]; [congruence | rewrite IH1; auto].
      * intros H. rewrite IH2; [reflexivity | auto].
      * assert (E' : String.eqb k' k = false) by (apply String.eqb_neq; congruence).
        rewrite E'. exact IH3.
      * intros k2 Hk. destruct (String.eqb k' k2); [reflexivity | auto].
Qed.

(** * Properties of the dashboard pages *)
Import Pages.

Lemma pbind_emit {A} e (k : unit -> Page A) net :
  pbind (emit e) k net = let '(l, u, o) := k tt net in (l, e :: u, o).
Proof. unfold pbind, emit, emit_all; cbn. destruct (k tt net) as [[l u] o]; reflexivity. Qed.

(** X15: pages 2, 4 and 5 issue no request unless their button is pressed
    with a non-empty input: unpressed they show only their widgets; pressed
    with an empty input pages 2 and 5 add their warning and page 4 nothing.
    Page 3 issues none unless its button is pressed. *)
Theorem pages_no_request_without_input t net :
  render_page2 t false net
  = ([], [Title "Summary Data"; Write ""; TextInput hgvs_label ""; Button "Get summary data"],
     Ret tt) /\
  render_page2 "" true net
  = ([], [Title "Summary Data"; Write ""; TextInput hgvs_label ""; Button "Get summary data";
          Warning "Please enter a search term."], Ret tt) /\
  render_page3 t false net
  = ([], [Title "In Silico Predictions"; Write " ";
          TextInput "Example variant format: 8-140300616-T-G" "Enter variant";
          Button "Get SpliceAI and Revel Data"], Ret tt) /\
  render_page4 t false net
  = ([], [Title "Control/Case Frequency"; Write " "; Header "GnomAD";
          TextInput hgvs_label ""; Button "Search GnomAD"], Ret tt) /\
  render_page4 "" true net
  = ([], [Title "Control/Case Frequency"; Write " "; Header "GnomAD";
          TextInput hgvs_label ""; Button "Search GnomAD"], Ret tt) /\
  render_page5 t false net
  = ([], [Title "Literature Search"; Write "This is the content of Page 5.";
          Header "PubMed";
          TextInput "Search any variant or disease association in PubMed" "Search";
          Button "Search Pubmed"], Ret tt) /\
  render_page5 "" true net
  = ([], [Title "Literature Search"; Write "This is the content of Page 5.";
          Header "PubMed";
          TextInput "Search any variant or disease association in PubMed" "Search";
          Button "Search Pubmed";
          Warning "Please enter a different text for Pubmed action."], Ret tt).
Proof.
  unfold render_page2, render_page3, render_page4, render_page5.
  repeat split; rewrite !pbind_emit; reflexivity.
Qed.

Lemma call_eq {B A} (v : body -> B) (m : IO B A) net :
  call v m net = (fst (m (view v net)), [], snd (m (view v net))).
Proof. unfold call. destruct (m (view v net)); reflexivity. Qed.

Lemma pbind_eq {A C} (m : Page A) (k : A -> Page C) net l u o :
  m net = (l, u, o) ->
  pbind m k net
  = match o with
    | Ret a => let '(l2, u2, o2) := k a net in (app l l2, app u u2, o2)
    | Raise e => (l, u, Raise e)
    end.
Proof. intros H. unfold pbind. rewrite H. reflexivity. Qed.

Lemma view_resp {B} (v : body -> B) net r s b :
  net r = Resp s b -> view v net r = Resp s (v b).
Proof. intros H. unfold view. rewrite H. reflexivity. Qed.

Lemma vep_lookup_log {A} (p : json -> json -> IO (option json) (option A)) h net :
  (forall d0 tc net', fst (p d0 tc net') = []) ->
  fst (vep_lookup p h net) = [Get (vep_url h)].
Proof.
  intros Hp.
  unfold vep_lookup, bind, send, ok, raise_for_status, raise, ret, lift, resp_json, sys_exit;
    cbv beta.
  destruct (net (Get (vep_url h))) as [| s b]; [reflexivity |].
  cbn -[vep_url].
  destruct (negb ((400 <=? s)%Z && (s <? 600)%Z)); cbn -[vep_url];
    [| destruct ((400 <=? s)%Z && (s <? 600)%Z); reflexivity].
  destruct b as [decoded |]; cbn -[vep_url]; [| reflexivity].
  destruct (py_len decoded) as [n |]; cbn -[vep_url]; [| reflexivity].
  destruct (1 <=? n)%Z; cbn -[vep_url]; [| reflexivity].
  destruct (getitem0 decoded) as [d0 |]; cbn -[vep_url]; [| reflexivity].
  destruct (contains "transcript_consequences" d0) as [[|] |]; cbn -[vep_url];
    [| reflexivity | reflexivity].
  destruct (getitem "transcript_consequences" d0) as [tcs |]; cbn -[vep_url]; [| reflexivity].
  destruct (getitem0 tcs) as [tc |]; cbn -[vep_url]; [| reflexivity].
  specialize (Hp d0 tc net). destruct (p d0 tc net) as [l o]; cbn in Hp; subst l.
  reflexivity.
Qed.

(** X16: on page 2 an error status (400-599) from the VEP service is not
    caught: the page stops with [HTTPError] after the one request and shows
    nothing beyond its input widgets. *)
Theorem page2_vep_http_error t net s b :
  t <> "" ->
  net (Get (vep_url t)) = Resp s b ->
  (400 <= s < 600)%Z ->
  render_page2 t true net
  = ([Get (vep_url t)],
     [Title "Summary Data"; Write ""; TextInput hgvs_label ""; Button "Get summary data"],
     Raise (HTTPError s)).
Proof.
  intros Ht Hnet Hs.
  unfold render_page2. rewrite !pbind_emit.
  apply String.eqb_neq in Ht. rewrite Ht. cbn [negb].
  rewrite (pbind_eq _ _ net [Get (vep_url t)] [] (Raise (HTTPError s))); [reflexivity |].
  rewrite call_eq, rest_is_vep_lookup,
    (vep_lookup_not_ok _ t (view as_json net) s (as_json b) (view_resp _ _ _ _ _ Hnet) Hs).
  reflexivity.
Qed.

Lemma page2_vep_http_error_witness :
  render_page2 "NM_000516.7:c.601C>T" true
    (fun _ => Resp 404%Z (mkBody None None (Html.HText "") "Not Found"))
  = ([Get (vep_url "NM_000516.7:c.601C>T")],
     [Title "Summary Data"; Write ""; TextInput hgvs_label ""; Button "Get summary data"],
     Raise (HTTPError 404)).
Proof.
  apply (page2_vep_http_error "NM_000516.7:c.601C>T"
           (fun _ => Resp 404%Z (mkBody None None (Html.HText "") "Not Found")) 404%Z
           (mkBody None None (Html.HText "") "Not Found") ltac:(discriminate) eq_refl
           ltac:(lia)).
Defined.

Lemma rest_log t net : fst (get_ensembl_rest_data t net) = [Get (vep_url t)].
Proof. rewrite rest_is_vep_lookup. apply vep_lookup_log, project_rest_pure. Qed.

Lemma coordinates_log t net : fst (get_genomic_coordinates t net) = [Get (vep_url t)].
Proof.
  rewrite coordinates_is_vep_lookup. apply vep_lookup_log. intros; apply project_coordinates_pure.
Qed.

Lemma varsome_log v a m net :
  fst (get_varsome_data_url v a m net)
  = [Get ("https://varsome.com/variant/" ++ (a ++ "/" ++ v) ++ "?annotation-mode=" ++ m)].
Proof.
  unfold get_varsome_data_url, try_except, bind, send, ret. cbv beta zeta.
  match goal with |- context [net ?r] => destruct (net r) as [| s b] end;
    cbn [content status_code is_request_exception app fst]; [reflexivity |].
  destruct (s =? 200)%Z; reflexivity.
Qed.

Ltac page_call :=
  match goal with
  | |- context [pbind (call ?v ?m) ?k ?n] =>
      rewrite (pbind_eq (call v m) k n _ _ _ (call_eq v m n));
      let o := fresh "o" in
      destruct (snd (m (view v n))) as [o | ?]
  end.

(** X17: when page 2 runs to the end on a non-empty term, its requests are,
    in order: the VEP lookup twice (once for the Ensembl summary, once for
    the coordinates), the ClinVar requests, and the one VarSome request for
    assembly hg38 in somatic mode. *)
Theorem page2_requests t net :
  t <> "" ->
  snd (render_page2 t true net) = Ret tt ->
  fst (fst (render_page2 t true net))
  = app [Get (vep_url t); Get (vep_url t)]
        (app (fst (get_clinvar_classification t (view as_xml net)))
             [Get ("https://varsome.com/variant/" ++ ("hg38" ++ "/" ++ t)
                   ++ "?annotation-mode=" ++ "somatic")]).
Proof.
  intros Ht.
  unfold render_page2. rewrite !pbind_emit.
  apply String.eqb_neq in Ht. rewrite Ht. cbn [negb].
  do 4 (page_call; rewrite ?rest_log, ?coordinates_log, ?varsome_log;
         cbn -[vep_url get_clinvar_classification]; [| discriminate]).
  unfold pbind, emit, emit_all, write_items.
  destruct o as [[| ? ?] |], o0 as [[| ? ?] |], o1 as [[[? ?] ?] |], o2 as [u |];
    try destruct (u =? "")%string; cbn -[vep_url get_clinvar_classification]; intros _;
    rewrite ?app_nil_r; reflexivity.
Qed.

Lemma page2_requests_witness :
  ("NM_000516.7:c.601C>T" <> "") /\
  (snd (render_page2 "NM_000516.7:c.601C>T" true PageSamples.quiet_net) = Ret tt) /\
  fst (fst (render_page2 "NM_000516.7:c.601C>T" true PageSamples.quiet_net))
  = app [Get (vep_url "NM_000516.7:c.601C>T"); Get (vep_url "NM_000516.7:c.601C>T")]
        (app (fst (get_clinvar_classification "NM_000516.7:c.601C>T"
                     (view as_xml PageSamples.quiet_net)))
             [Get ("https://varsome.com/variant/" ++ ("hg38" ++ "/" ++ "NM_000516.7:c.601C>T")
                   ++ "?annotation-mode=" ++ "somatic")]).
Proof.
  assert (Ht : "NM_000516.7:c.601C>T" <> "") by discriminate.
  assert (Hr : snd (render_page2 "NM_000516.7:c.601C>T" true PageSamples.quiet_net) = Ret tt)
    by (vm_compute; reflexivity).
  split; [exact Ht |]. split; [exact Hr |].
  apply (page2_requests "NM_000516.7:c.601C>T" PageSamples.quiet_net Ht Hr).
Defined.

Lemma revel_bad_input s net :
  length (PyStr.split "-"%char s) <> 4%nat ->
  get_revel_score s net = ([], Raise (ValueError revel_format_error)).
Proof.
  intros H4. unfold get_revel_score, revel_input_data; io_simpl.
  apply Nat.eqb_neq in H4. rewrite H4. reflexivity.
Qed.

Lemma splice_log v hg dist m net :
  fst (get_splice_ai_data v hg dist m net)
  = [Get (splice_base_url ++ "?hg=" ++ PyStr.of_Z hg ++ "&distance=" ++ PyStr.of_Z dist
          ++ "&mask=" ++ PyStr.of_Z m ++ "&variant=" ++ v)].
Proof. rewrite splice_ai_run. reflexivity. Qed.

Lemma pbind_plift_raise {A C} e (k : A -> Page C) net :
  pbind (plift (Raise e)) k net = ([], [], Raise e).
Proof. reflexivity. Qed.

(** X18: page 3 does not catch a malformed SpliceAI record: when the 200
    reply to its SpliceAI request decodes to a value other than [null] from
    which [['scores'][0]['DS_AG']] cannot be read, the page stops with that
    error after "Processing...", before the REVEL and Ensembl requests. *)
Theorem page3_splice_record_error u net b d e :
  let url := splice_base_url ++ "?hg=" ++ PyStr.of_Z 38 ++ "&distance=" ++ PyStr.of_Z 500
             ++ "&mask=" ++ PyStr.of_Z 1 ++ "&variant=" ++ u in
  net (Get url) = Resp 200%Z b ->
  as_json b = Some d ->
  is_none d = false ->
  splice_score "DS_AG" d = Raise e ->
  render_page3 u true net
  = ([Get url],
     [Title "In Silico Predictions"; Write " ";
      TextInput "Example variant format: 8-140300616-T-G" "Enter variant";
      Button "Get SpliceAI and Revel Data"; Write "Processing..."],
     Raise e).
Proof.
  intros url Hnet Hb Hd He.
  unfold render_page3. rewrite !pbind_emit.
  rewrite (pbind_eq _ _ net [Get url] [] (Ret (Some d))).
  - cbn iota beta. rewrite Hd. cbn [negb].
    unfold pbind at 2. rewrite He. reflexivity.
  - rewrite call_eq, splice_ai_run. fold url. cbn zeta.
    rewrite (view_resp as_json net _ _ _ Hnet), Hb. reflexivity.
Qed.

(** X19: page 3 does not catch the format error of the REVEL step: for an
    input that does not split into four fields on "-", when the SpliceAI
    lookup yields nothing the page shows its error line and then stops with
    [ValueError], having issued only the SpliceAI request; the Ensembl part
    of the page is never reached. *)
Theorem page3_bad_input u net :
  length (PyStr.split "-"%char u) <> 4%nat ->
  snd (get_splice_ai_data u 38 500 1 (view as_json net)) = Ret None ->
  render_page3 u true net
  = ([Get (splice_base_url ++ "?hg=" ++ PyStr.of_Z 38 ++ "&distance=" ++ PyStr.of_Z 500
           ++ "&mask=" ++ PyStr.of_Z 1 ++ "&variant=" ++ u)],
     [Title "In Silico Predictions"; Write " ";
      TextInput "Example variant format: 8-140300616-T-G" "Enter variant";
      Button "Get SpliceAI and Revel Data"; Write "Processing...";
      Write "Error retrieving SpliceAI data."],
     Raise (ValueError revel_format_error)).
Proof.
  intros H4 Hs.
  unfold render_page3. rewrite !pbind_emit.
  rewrite (pbind_eq _ _ net _ _ _ (call_eq as_json (get_splice_ai_data u 38 500 1) net)).
  rewrite Hs, splice_log. cbn iota beta.
  rewrite pbind_emit.
  rewrite (pbind_eq _ _ net _ _ _ (call_eq as_html (get_revel_score u) net)).
  rewrite (revel_bad_input u _ H4). reflexivity.
Qed.

Lemma page3_splice_record_error_witness :
  render_page3 "8-140300616-T-G" true
    (fun _ => Resp 200%Z (mkBody (Some (JDict [("error", JStr "Variant not found")])) None
                                 (Html.HText "") ""))
  = ([Get (splice_base_url ++ "?hg=" ++ PyStr.of_Z 38 ++ "&distance=" ++ PyStr.of_Z 500
           ++ "&mask=" ++ PyStr.of_Z 1 ++ "&variant=" ++ "8-140300616-T-G")],
     [Title "In Silico Predictions"; Write " ";
      TextInput "Example variant format: 8-140300616-T-G" "Enter variant";
      Button "Get SpliceAI and Revel Data"; Write "Processing..."],
     Raise KeyError).
Proof.
  apply (page3_splice_record_error "8-140300616-T-G"
           (fun _ => Resp 200%Z (mkBody (Some (JDict [("error", JStr "Variant not found")]))
                                        None (Html.HText "") ""))
           (mkBody (Some (JDict [("error", JStr "Variant not found")])) None (Html.HText "") "")
           (JDict [("error", JStr "Variant not found")]) KeyError
           eq_refl eq_refl eq_refl eq_refl).
Defined.

Lemma page3_bad_input_witness :
  render_page3 "BRCA1" true (fun _ => NetError)
  = ([Get (splice_base_url ++ "?hg=" ++ PyStr.of_Z 38 ++ "&distance=" ++ PyStr.of_Z 500
           ++ "&mask=" ++ PyStr.of_Z 1 ++ "&variant=" ++ "BRCA1")],
     [Title "In Silico Predictions"; Write " ";
      TextInput "Example variant format: 8-140300616-T-G" "Enter variant";
      Button "Get SpliceAI and Revel Data"; Write "Processing...";
      Write "Error retrieving SpliceAI data."],
     Raise (ValueError revel_format_error)).
Proof.
  apply (page3_bad_input "BRCA1" (fun _ => NetError) ltac:(cbn; discriminate)).
  reflexivity.
Defined.

Lemma pbind_plift_ret {A C} (a : A) (k : A -> Page C) net :
  pbind (plift (Ret a)) k net = k a net.
Proof. unfold pbind, plift. destruct (k a net) as [[l u] o]; reflexivity. Qed.

Lemma set_allele_frequency_dict kv af :
  set_allele_frequency (JDict kv) af
  = Ret (cell_set "allele_frequency" (CFreq af) (map (fun p => (fst p, CJson (snd p))) kv)).
Proof. reflexivity. Qed.

Lemma frequency_row_cell_set kv af :
  PageSpec.frequency_row kv af
    (cell_set "allele_frequency" (CFreq af) (map (fun p => (fst p, CJson (snd p))) kv)).
Proof.
  destruct (cell_set_spec "allele_frequency" (CFreq af) (map (fun p => (fst p, CJson (snd p))) kv))
    as (H1 & H2 & H3 & H4).
  assert (M : map fst (map (fun p => (fst p, CJson (snd p))) kv) = map fst kv)
    by (rewrite map_map; reflexivity).
  rewrite M in H1, H2.
  split; [exact H1 | split; [exact H2 | split; [exact H3 | exact H4]]].
Qed.

Lemma page4_results_eq h net l fv gkv xkv ga xa :
  h <> "" ->
  get_gnomad_data h (view as_json net) = (l, Ret (Some (fv, JDict gkv, JDict xkv))) ->
  Dashboard.allele_frequency (JDict gkv) = Ret ga ->
  Dashboard.allele_frequency (JDict xkv) = Ret xa ->
  render_page4 h true net
  = (l,
     [Title "Control/Case Frequency"; Write " "; Header "GnomAD";
      TextInput hgvs_label ""; Button "Search GnomAD";
      Subheader "Results:"; WriteMany ["Formatted Variant for GnomAD Search:"; fv];
      Subheader "GnomAD Genome Data:";
      TextTable (cell_set "allele_frequency" (CFreq ga)
                   (map (fun p => (fst p, CJson (snd p))) gkv));
      Subheader "GnomAD Exome Data:";
      TextTable (cell_set "allele_frequency" (CFreq xa)
                   (map (fun p => (fst p, CJson (snd p))) xkv));
      Write ("GnomAD Link: [" ++ fv ++ "](" ++ gnomad_variant_url ++ fv ++ ")")],
     Ret tt).
Proof.
  intros Ht Hres Hg Hx.
  unfold render_page4. rewrite !pbind_emit.
  apply String.eqb_neq in Ht. rewrite Ht. cbn [negb].
  rewrite (pbind_eq _ _ net _ _ _ (call_eq as_json (get_gnomad_data h) net)).
  rewrite Hres. cbn [fst snd].
  rewrite Hg, pbind_plift_ret, set_allele_frequency_dict, pbind_plift_ret.
  rewrite Hx, pbind_plift_ret, set_allele_frequency_dict, pbind_plift_ret.
  cbn [emit_all]. rewrite app_nil_r. reflexivity.
Qed.


(** X20: on a gnomAD result whose genome and exome records are
    dictionaries with a computable allele frequency, page 4 shows, after its
    widgets, the formatted variant, one table row per record (its columns
    followed by [allele_frequency], or with that column replaced in place if
    the record has one) and the link to the variant's gnomAD page; the only
    requests are those of get_gnomad_data. *)
Theorem page4_results h net l fv gkv xkv ga xa :
  h <> "" ->
  get_gnomad_data h (view as_json net) = (l, Ret (Some (fv, JDict gkv, JDict xkv))) ->
  Dashboard.allele_frequency (JDict gkv) = Ret ga ->
  Dashboard.allele_frequency (JDict xkv) = Ret xa ->
  render_page4 h true net
  = (l,
     [Title "Control/Case Frequency"; Write " "; Header "GnomAD";
      TextInput hgvs_label ""; Button "Search GnomAD";
      Subheader "Results:"; WriteMany ["Formatted Variant for GnomAD Search:"; fv];
      Subheader "GnomAD Genome Data:";
      TextTable (cell_set "allele_frequency" (CFreq ga)
                   (map (fun p => (fst p, CJson (snd p))) gkv));
      Subheader "GnomAD Exome Data:";
      TextTable (cell_set "allele_frequency" (CFreq xa)
                   (map (fun p => (fst p, CJson (snd p))) xkv));
      Write ("GnomAD Link: [" ++ fv ++ "](" ++ gnomad_variant_url ++ fv ++ ")")],
     Ret tt).
Proof. exact (page4_results_eq h net l fv gkv xkv ga xa). Qed.

(** X14: on a gnomAD result whose genome and exome records are
    dictionaries with a computable allele frequency, each of the two tables
    of page 4 is the record with the [allele_frequency] column set by
    [data['allele_frequency'] = af]: kept in place when the record has it,
    appended last otherwise, and holding the computed frequency, every other
    column showing the record's value. *)
Theorem page4_frequency_columns h net l fv gkv xkv ga xa :
  h <> "" ->
  get_gnomad_data h (view as_json net) = (l, Ret (Some (fv, JDict gkv, JDict xkv))) ->
  Dashboard.allele_frequency (JDict gkv) = Ret ga ->
  Dashboard.allele_frequency (JDict xkv) = Ret xa ->
  exists tg tx,
    render_page4 h true net
    = (l,
       [Title "Control/Case Frequency"; Write " "; Header "GnomAD";
        TextInput hgvs_label ""; Button "Search GnomAD";
        Subheader "Results:"; WriteMany ["Formatted Variant for GnomAD Search:"; fv];
        Subheader "GnomAD Genome Data:"; TextTable tg;
        Subheader "GnomAD Exome Data:"; TextTable tx;
        Write ("GnomAD Link: [" ++ fv ++ "](" ++ gnomad_variant_url ++ fv ++ ")")],
       Ret tt) /\
    PageSpec.frequency_row gkv ga tg /\ PageSpec.frequency_row xkv xa tx.
Proof.
  intros Ht Hres Hg Hx.
  rewrite (page4_results_eq h net l fv gkv xkv ga xa Ht Hres Hg Hx).
  eexists _, _. split; [reflexivity |].
  split; apply frequency_row_cell_set.
Qed.

(** X21: page 4 shows nothing beyond its widgets when get_gnomad_data
    returns [None], and stops with the error, showing nothing more, when the
    allele frequency of the genome record raises (for instance a record
    without [an], or a [null] record). *)
Theorem page4_no_results h net l fv g x e :
  h <> "" ->
  (get_gnomad_data h (view as_json net) = (l, Ret None) ->
   render_page4 h true net
   = (l, [Title "Control/Case Frequency"; Write " "; Header "GnomAD";
          TextInput hgvs_label ""; Button "Search GnomAD"], Ret tt)) /\
  (get_gnomad_data h (view as_json net) = (l, Ret (Some (fv, g, x))) ->
   Dashboard.allele_frequency g = Raise e ->
   render_page4 h true net
   = (l, [Title "Control/Case Frequency"; Write " "; Header "GnomAD";
          TextInput hgvs_label ""; Button "Search GnomAD"], Raise e)).
Proof.
  intros Ht.
  unfold render_page4. rewrite !pbind_emit.
  apply String.eqb_neq in Ht. rewrite Ht. cbn [negb].
  rewrite (pbind_eq _ _ net _ _ _ (call_eq as_json (get_gnomad_data h) net)).
  split.
  - intros Hres. rewrite Hres. cbn. rewrite !app_nil_r. reflexivity.
  - intros Hres Hg. rewrite Hres. cbn [fst snd]. rewrite Hg. cbn. rewrite !app_nil_r.
    reflexivity.
Qed.

Lemma page4_results_witness :
  render_page4 "NM_000516.7:c.601C>T" true (PageSamples.gnomad_net 200)
  = ([Get (vep_url "NM_000516.7:c.601C>T");
      PostJson gnomad_api_url (gnomad_query_params "8-100-C-T")],
     [Title "Control/Case Frequency"; Write " "; Header "GnomAD";
      TextInput hgvs_label ""; Button "Search GnomAD";
      Subheader "Results:"; WriteMany ["Formatted Variant for GnomAD Search:"; "8-100-C-T"];
      Subheader "GnomAD Genome Data:";
      TextTable [("ac", CJson (JInt 3)); ("an", CJson (JInt 6));
                 ("allele_frequency", CFreq (Some (1 # 2)))];
      Subheader "GnomAD Exome Data:";
      TextTable [("ac", CJson (JInt 0)); ("an", CJson (JInt 0)); ("allele_frequency", CFreq None)];
      Write ("GnomAD Link: [" ++ "8-100-C-T" ++ "](" ++ gnomad_variant_url ++ "8-100-C-T" ++ ")")],
     Ret tt).
Proof.
  apply (page4_results "NM_000516.7:c.601C>T" (PageSamples.gnomad_net 200)
           [Get (vep_url "NM_000516.7:c.601C>T");
            PostJson gnomad_api_url (gnomad_query_params "8-100-C-T")]
           "8-100-C-T" [("ac", JInt 3); ("an", JInt 6)] [("ac", JInt 0); ("an", JInt 0)]
           (Some (1 # 2)) None
           ltac:(discriminate) ltac:(vm_compute; reflexivity) ltac:(vm_compute; reflexivity)
           eq_refl).
Defined.

Lemma page4_frequency_columns_witness :
  exists tg tx,
    render_page4 "NM_000516.7:c.601C>T" true (PageSamples.gnomad_net 200)
    = ([Get (vep_url "NM_000516.7:c.601C>T");
        PostJson gnomad_api_url (gnomad_query_params "8-100-C-T")],
       [Title "Control/Case Frequency"; Write " "; Header "GnomAD";
        TextInput hgvs_label ""; Button "Search GnomAD";
        Subheader "Results:"; WriteMany ["Formatted Variant for GnomAD Search:"; "8-100-C-T"];
        Subheader "GnomAD Genome Data:"; TextTable tg;
        Subheader "GnomAD Exome Data:"; TextTable tx;
        Write ("GnomAD Link: [" ++ "8-100-C-T" ++ "](" ++ gnomad_variant_url ++ "8-100-C-T" ++ ")")],
       Ret tt) /\
    PageSpec.frequency_row [("ac", JInt 3); ("an", JInt 6)] (Some (1 # 2)) tg /\
    PageSpec.frequency_row [("ac", JInt 0); ("an", JInt 0)] None tx.
Proof.
  apply (page4_frequency_columns "NM_000516.7:c.601C>T" (PageSamples.gnomad_net 200)
           [Get (vep_url "NM_000516.7:c.601C>T");
            PostJson gnomad_api_url (gnomad_query_params "8-100-C-T")]
           "8-100-C-T" [("ac", JInt 3); ("an", JInt 6)] [("ac", JInt 0); ("an", JInt 0)]
           (Some (1 # 2)) None
           ltac:(discriminate) ltac:(vm_compute; reflexivity) ltac:(vm_compute; reflexivity)
           eq_refl).
Defined.

Lemma page4_no_results_witness :
  render_page4 "NM_000516.7:c.601C>T" true (PageSamples.gnomad_net 503)
  = ([Get (vep_url "NM_000516.7:c.601C>T");
      PostJson gnomad_api_url (gnomad_query_params "8-100-C-T")],
     [Title "Control/Case Frequency"; Write " "; Header "GnomAD";
      TextInput hgvs_label ""; Button "Search GnomAD"], Ret tt).
Proof.
  apply (proj1 (page4_no_results "NM_000516.7:c.601C>T" (PageSamples.gnomad_net 503)
           [Get (vep_url "NM_000516.7:c.601C>T");
            PostJson gnomad_api_url (gnomad_query_params "8-100-C-T")]
           "" JNull JNull KeyError ltac:(discriminate))).
  vm_compute; reflexivity.
Defined.

(** X22: page 5, pressed with a non-empty input, issues exactly the one
    PubMed request and never stops on an error: after "Searching Pubmed..."
    it renders each string search_pubmed returns as HTML markdown, and writes
    "No search results found." when it returns [None] or an empty list. *)
Theorem page5_results q net :
  q <> "" ->
  exists r,
    snd (search_pubmed q (view as_html net)) = Ret r /\
    render_page5 q true net
    = ([Get (pubmed_base_url ++ "/?term=" ++ PyStr.replace1 " "%char "+"%char q)],
       app [Title "Literature Search"; Write "This is the content of Page 5.";
            Header "PubMed";
            TextInput "Search any variant or disease association in PubMed" "Search";
            Button "Search Pubmed"; Write "Searching Pubmed..."]
           (match r with
            | Some ((_ :: _) as l) => map (fun result => Markdown result true) l
            | _ => [Write "No search results found."]
            end),
       Ret tt).
Proof.
  intros Hq.
  destruct (pubmed_total q (view as_html net)) as [r Hr].
  exists r. split; [exact Hr |].
  unfold render_page5. rewrite !pbind_emit.
  apply String.eqb_neq in Hq. rewrite Hq. cbn [negb].
  rewrite pbind_emit.
  rewrite (pbind_eq _ _ net _ _ _ (call_eq as_html (search_pubmed q) net)).
  rewrite Hr, pubmed_log.
  destruct r as [[| x l] |]; cbn; rewrite ?app_nil_r; reflexivity.
Qed.

Lemma page5_results_witness :
  render_page5 "BRCA1 c.68" true (fun _ => NetError)
  = ([Get (pubmed_base_url ++ "/?term=" ++ "BRCA1+c.68")],
     [Title "Literature Search"; Write "This is the content of Page 5.";
      Header "PubMed";
      TextInput "Search any variant or disease association in PubMed" "Search";
      Button "Search Pubmed"; Write "Searching Pubmed..."; Write "No search results found."],
     Ret tt).
Proof.
  destruct (page5_results "BRCA1 c.68" (fun _ => NetError) ltac:(discriminate))
    as [r [Hr Hp]].
  rewrite Hp.
  assert (Hn : r = None) by (cbv in Hr; congruence).
  rewrite Hn. reflexivity.
Defined.
